(** * Breast cancer risk prediction form: a model of [app.py]

    The page is a Streamlit script.  Each run reads the sidebar widgets,
    assembles a one-row table, optionally asks the pickled pipeline for a
    prediction, and optionally runs the pipeline over an uploaded CSV.

    The development follows the script from top to bottom:
    - tables ([DataFrame]) are ordered lists of named columns, as pandas
      keeps them;
    - the label dictionaries are finite maps keyed by strings;
    - Python exceptions are values ([PyException]) carried by [result];
    - the part of the script that mutates [csv_df], draws on the page and
      writes a file is a state-and-exception computation ([script]);
    - the pickled pipeline, the CSV parser, the CSV printer and the file
      system's refusal to open a file are parameters ([Classifier],
      [Platform]): their code is not part of the script. *)

From Stdlib Require Import ZArith QArith Qminmax Lqa Lia Ascii.
From stdpp Require Import gmap strings list pretty.

Local Open Scope Z_scope.
Local Open Scope string_scope.

(** ** Values, tables, exceptions *)

(** A cell of a table.  Integers are Python/numpy integers, [VFloat] holds a
    finite floating-point number as the rational it denotes, [VNaN] is the
    missing value pandas writes where a lookup finds nothing. *)
Inductive cell :=
| VInt (z : Z)
| VFloat (q : Q)
| VStr (s : string)
| VNaN.

(** A pandas table: the length of its index and its columns, in order. *)
Record DataFrame := mkDataFrame {
  n_rows : nat;
  columns : list (string * list cell)
}.

Definition column_names (df : DataFrame) : list string := (columns df).*1.

(** An instance of Python's [Exception], the class the handler of line 219
    names: its class name and [str(e)].  This is what parsing, the pipeline,
    column assignment and file writing raise; the interpreter's exit signals,
    which derive from [BaseException] alone, are not values of this type. *)
Record PyException := mkExc {
  exc_class : string;
  exc_str : string
}.

Inductive result (A : Type) :=
| Ok (a : A)
| Raise (e : PyException).
Arguments Ok {A} a.
Arguments Raise {A} e.

#[global] Instance result_ret : MRet result := λ A a, Ok a.
#[global] Instance result_bind : MBind result := λ A B f m,
  match m with
  | Ok a => f a
  | Raise e => Raise e
  end.

(** [repr] of a Python string.  The text is put between single quotes, or
    between double quotes when it has a single quote and no double quote;
    the backslash and the enclosing quote are escaped with a backslash, tab,
    line feed and carriage return are written [\t], [\n], [\r], and the
    other control characters as [\x] and two hexadecimal digits.  A string
    is the UTF-8 encoding of the Python text; bytes above 127 are copied,
    which is what Python does for the printable characters they encode. *)
Definition single_quote : ascii := "039"%char.
Definition double_quote : ascii := "034"%char.
Definition backslash : ascii := "092"%char.

Definition hex_digit (n : N) : ascii :=
  if decide (n < 10)%N then ascii_of_N (48 + n) else ascii_of_N (87 + n).

Definition repr_char (quote c : ascii) : string :=
  let n := N_of_ascii c in
  if decide (c = quote ∨ c = backslash) then String backslash (String c "")
  else if decide (n = 9%N) then "\t"
  else if decide (n = 10%N) then "\n"
  else if decide (n = 13%N) then "\r"
  else if decide ((n < 32)%N ∨ n = 127%N)
  then String backslash
         (String "x"
            (String (hex_digit (n / 16)) (String (hex_digit (n mod 16)) "")))
  else String c "".

Fixpoint repr_body (quote : ascii) (s : string) : string :=
  match s with
  | "" => ""
  | String c rest => repr_char quote c ++ repr_body quote rest
  end.

Fixpoint has_char (c : ascii) (s : string) : bool :=
  match s with
  | "" => false
  | String c' rest => bool_decide (c' = c) || has_char c rest
  end.

Definition py_repr (s : string) : string :=
  let quote :=
    if has_char single_quote s && negb (has_char double_quote s)
    then double_quote else single_quote in
  String quote (repr_body quote s ++ String quote "").

(** The strings whose characters are all ASCII. *)
Definition ascii_only (s : string) : Prop :=
  Forall (λ c, (N_of_ascii c < 128)%N) (String.list_ascii_of_string s).

(** [d[k]] on a dictionary with string keys; the text of a [KeyError] is
    the [repr] of the key. *)
Definition dict_getitem (d : gmap string Z) (k : string) : result Z :=
  match d !! k with
  | Some v => Ok v
  | None => Raise (mkExc "KeyError" (py_repr k))
  end.

(** ** The sidebar (lines 63-140) *)

(** What the user has selected in each widget during one run. *)
Record Sidebar := mkSidebar {
  year : Z;
  age_group : Z;
  race_eth : Z;
  first_degree_hx : Z;
  biophx : Z;
  age_menarche_label : string;
  age_first_birth_label : string;
  menopaus_label : string;
  birads_density : Z;
  current_hrt : Z;
  bmi_group : Z
}.

(** The option lists the widgets are built with. *)
Definition year_options : list Z := [2013].
Definition age_group_min : Z := 1.
Definition age_group_max : Z := 13.
Definition age_group_default : Z := 7.
Definition race_eth_options : list Z := [1; 2; 3; 4; 5; 6].
Definition first_degree_hx_options : list Z := [0; 1].
Definition biophx_options : list Z := [0; 1].
Definition age_menarche_options : list string := ["Late"; "Early"; "Normal"].
Definition age_first_birth_options : list string :=
  ["Early"; "Normal"; "Late"; "Very Late"].
Definition menopaus_options : list string := ["Pre"; "Post"; "Peri"].
Definition birads_density_options : list Z := [1; 2; 3; 4].
Definition current_hrt_options : list Z := [0; 1].
Definition bmi_group_options : list Z := [1; 2; 3; 4].

(** A selectbox returns one of its options and the slider a value between
    its bounds: these are the selections a run can observe. *)
Definition valid_sidebar (s : Sidebar) : Prop :=
  year s ∈ year_options ∧
  (age_group_min ≤ age_group s ≤ age_group_max)%Z ∧
  race_eth s ∈ race_eth_options ∧
  first_degree_hx s ∈ first_degree_hx_options ∧
  biophx s ∈ biophx_options ∧
  age_menarche_label s ∈ age_menarche_options ∧
  age_first_birth_label s ∈ age_first_birth_options ∧
  menopaus_label s ∈ menopaus_options ∧
  birads_density s ∈ birads_density_options ∧
  current_hrt s ∈ current_hrt_options ∧
  bmi_group s ∈ bmi_group_options.

#[global] Instance valid_sidebar_dec s : Decision (valid_sidebar s).
Proof. unfold valid_sidebar. apply _. Defined.

(** The [format_func] of the three yes/no selectboxes (lines 77, 83, 128). *)
Definition yes_no (x : Z) : string := if decide (x = 0) then "No" else "Yes".

(** The dictionaries inside the [format_func] of the BIRADS and BMI
    selectboxes (lines 117-122 and 134-139). *)
Definition birads_density_format : gmap Z string :=
  <[1 := "Fatty"]> (<[2 := "Scattered"]>
    (<[3 := "Heterogeneously Dense"]> (<[4 := "Extremely Dense"]> ∅))).

Definition bmi_group_format : gmap Z string :=
  <[1 := "Underweight"]> (<[2 := "Normal"]>
    (<[3 := "Overweight"]> (<[4 := "Obese"]> ∅))).

(** [lambda x: {...}[x]]: the label of an option, [KeyError] without one. *)
Definition format_with (d : gmap Z string) (x : Z) : result string :=
  match d !! x with
  | Some label => Ok label
  | None => Raise (mkExc "KeyError" (pretty x))
  end.

(** The three label dictionaries (lines 91, 98-103, 110). *)
Definition age_menarche_map : gmap string Z :=
  <["Late" := 0]> (<["Early" := 1]> (<["Normal" := 2]> ∅)).

Definition age_first_birth_map : gmap string Z :=
  <["Early" := 1]> (<["Normal" := 2]> (<["Late" := 3]> (<["Very Late" := 4]> ∅))).

Definition menopaus_map : gmap string Z :=
  <["Pre" := 1]> (<["Post" := 2]> (<["Peri" := 3]> ∅)).

(** ** The input table (lines 92, 104, 111, 143-155) *)

Definition input_df (s : Sidebar) : result DataFrame :=
  age_menarche ← dict_getitem age_menarche_map (age_menarche_label s);
  age_first_birth ← dict_getitem age_first_birth_map (age_first_birth_label s);
  menopaus ← dict_getitem menopaus_map (menopaus_label s);
  mret (mkDataFrame 1 [
    ("year", [VInt (year s)]);
    ("age_group_5_years", [VInt (age_group s)]);
    ("race_eth", [VInt (race_eth s)]);
    ("first_degree_hx", [VInt (first_degree_hx s)]);
    ("age_menarche", [VInt age_menarche]);
    ("age_first_birth", [VInt age_first_birth]);
    ("BIRADS_breast_density", [VInt (birads_density s)]);
    ("current_hrt", [VInt (current_hrt s)]);
    ("menopaus", [VInt menopaus]);
    ("bmi_group", [VInt (bmi_group s)]);
    ("biophx", [VInt (biophx s)])
  ]).

(** The selection of the worked example: every widget at the value the
    example lists. *)
Definition example_sidebar : Sidebar :=
  {| year := 2013; age_group := 7; race_eth := 1; first_degree_hx := 0;
     biophx := 0; age_menarche_label := "Normal";
     age_first_birth_label := "Normal"; menopaus_label := "Pre";
     birads_density := 2; current_hrt := 0; bmi_group := 2 |}.

(** The eleven column names, in the order the pipeline was trained on. *)
Definition feature_columns : list string :=
  ["year"; "age_group_5_years"; "race_eth"; "first_degree_hx"; "age_menarche";
   "age_first_birth"; "BIRADS_breast_density"; "current_hrt"; "menopaus";
   "bmi_group"; "biophx"].

(** ** The page, the bound table and the disk *)

(** What a run leaves on the main area of the page.  [StDataframe] holds the
    table as it was when it was drawn; [StMetric] holds the percentage
    before it is printed with two decimals. *)
Inductive element :=
| StMarkdown (body : string)
| StText (body : string)
| StDivider
| StSubheader (body : string)
| StDataframe (data : DataFrame)
| StButton (label : string)
| StError (body : string)
| StSuccess (body : string)
| StMetric (label : string) (percent : Q)
| StDownloadButton (label data file_name mime : string).

(** The state a run works on: the table the name [csv_df] is bound to (the
    script mutates that object in place), the elements drawn so far, and
    the files of the working directory with their contents. *)
Record World := mkWorld {
  csv_df : option DataFrame;
  page : list element;
  files : gmap string string
}.

(** A piece of the script: it may raise, and what it did to the world
    before raising stays done. *)
Definition script (A : Type) : Type := World → result A * World.

#[global] Instance script_ret : MRet script := λ A a w, (Ok a, w).
#[global] Instance script_bind : MBind script := λ A B f m w,
  match m w with
  | (Ok a, w') => f a w'
  | (Raise e, w') => (Raise e, w')
  end.

Definition lift {A} (r : result A) : script A := λ w, (r, w).

(** [try: body except Exception as e: handler e]. *)
Definition try_except {A} (body : script A) (handler : PyException → script A)
  : script A := λ w,
  match body w with
  | (Ok a, w') => (Ok a, w')
  | (Raise e, w') => handler e w'
  end.

Definition draw (e : element) : script unit := λ w,
  (Ok tt, mkWorld (csv_df w) (page w ++ [e]) (files w)).

(** [csv_df = df]. *)
Definition bind_csv_df (df : DataFrame) : script unit := λ w,
  (Ok tt, mkWorld (Some df) (page w) (files w)).

(** Reading the name [csv_df]. *)
Definition get_csv_df : script DataFrame := λ w,
  match csv_df w with
  | Some df => (Ok df, w)
  | None => (Raise (mkExc "NameError" "name 'csv_df' is not defined"), w)
  end.

(** Column assignment on a table: a column of that name is overwritten
    where it stands, a new name is added after the last column. *)
Definition set_column (name : string) (values : list cell) (df : DataFrame)
  : DataFrame :=
  mkDataFrame (n_rows df)
    (if decide (name ∈ column_names df)
     then (λ c : string * list cell,
             if decide (c.1 = name) then (c.1, values) else c) <$> columns df
     else columns df ++ [(name, values)]).

(** [df[name]]: the column of that name. *)
Fixpoint lookup_column (name : string) (cols : list (string * list cell))
  : option (list cell) :=
  match cols with
  | [] => None
  | c :: rest => if decide (c.1 = name) then Some c.2 else lookup_column name rest
  end.

Definition get_column (name : string) (df : DataFrame) : option (list cell) :=
  lookup_column name (columns df).

(** The cell of column [name] in row [i]. *)
Definition cell_at (name : string) (i : nat) (df : DataFrame) : option cell :=
  col ← get_column name df; col !! i.

Definition length_mismatch (given index : nat) : PyException :=
  mkExc "ValueError"
    ("Length of values (" ++ pretty given ++
     ") does not match length of index (" ++ pretty index ++ ")").

(** A column brought to [k] rows: cut, or filled up with NaN. *)
Definition reindex (k : nat) (col : list cell) : list cell :=
  take k (col ++ replicate k VNaN).

(** What pandas does to a table before a value of [k] cells is assigned to
    one of its columns: a table without rows takes the index of a value that
    has cells, and the columns it has are filled with NaN over that index. *)
Definition ensure_valid_index (k : nat) (df : DataFrame) : DataFrame :=
  if decide (n_rows df = 0%nat ∧ k ≠ 0%nat)
  then mkDataFrame k
         ((λ c : string * list cell, (c.1, reindex k c.2)) <$> columns df)
  else df.

(** The table after [df[name] = values] for an array that pandas accepts,
    and after [df[name] = series] for a series over a range index. *)
Definition assign_array (name : string) (values : list cell) (df : DataFrame)
  : DataFrame :=
  set_column name values (ensure_valid_index (length values) df).

Definition assign_series (name : string) (values : list cell) (df : DataFrame)
  : DataFrame :=
  let df' := ensure_valid_index (length values) df in
  set_column name (reindex (n_rows df') values) df'.

(** [csv_df[name] = values] for an array: once the index is settled, pandas
    refuses an array whose length is not the length of the index. *)
Definition setitem (name : string) (values : list cell) : script unit :=
  df ← get_csv_df;
  let df' := ensure_valid_index (length values) df in
  if decide (length values = n_rows df')
  then bind_csv_df (set_column name values df')
  else lift (Raise (length_mismatch (length values) (n_rows df'))).

(** [csv_df[name] = series]: a series is aligned with the index of the
    table, never refused. *)
Definition setitem_series (name : string) (values : list cell) : script unit :=
  df ← get_csv_df;
  bind_csv_df (assign_series name values df).

(** [csv_df[name]]. *)
Definition getitem (name : string) : script (list cell) :=
  df ← get_csv_df;
  match get_column name df with
  | Some col => mret col
  | None => lift (Raise (mkExc "KeyError" (py_repr name)))
  end.

(** ** The collaborators *)

(** The unpickled pipeline: a label per row, a probability pair
    [(p_low, p_high)] per row.  Either call may raise.  Neither changes
    the table it is given. *)
Record Classifier := mkClassifier {
  predict : DataFrame → result (list Z);
  predict_proba : DataFrame → result (list (Q * Q))
}.

(** pandas and the operating system: parsing an upload, printing a table
    without its index, and the error (if any) that opening a path for
    writing meets. *)
Record Platform := mkPlatform {
  read_csv : string → result DataFrame;
  to_csv : DataFrame → string;
  open_error : gmap string string → string → option PyException
}.

(** [df.to_csv(path, index=False)]. *)
Definition write_csv (pf : Platform) (path : string) (df : DataFrame)
  : script unit := λ w,
  match open_error pf (files w) path with
  | Some e => (Raise e, w)
  | None =>
      (Ok tt, mkWorld (csv_df w) (page w) (<[path := to_csv pf df]> (files w)))
  end.

(** [a[0]] on an array. *)
Definition first_item {A} (a : list A) : result A :=
  match a with
  | x :: _ => Ok x
  | [] => Raise (mkExc "IndexError"
            "index 0 is out of bounds for axis 0 with size 0")
  end.

(** ** Single-record prediction (lines 161-173) *)

Definition risk_banner (pred : Z) : element :=
  if decide (pred = 1)
  then StError "⚠️ High Risk of Breast Cancer"
  else StSuccess "✅ Low Risk of Breast Cancer".

Definition predict_risk (model : Classifier) (input : DataFrame) : script unit :=
  preds ← lift (predict model input);
  pred ← lift (first_item preds);
  probs ← lift (predict_proba model input);
  prob ← lift (first_item probs);
  draw (StSubheader "📊 Prediction Result");;
  draw (risk_banner pred);;
  draw (StMetric "Low Risk Probability" (prob.1 * 100));;
  draw (StMetric "High Risk Probability" (prob.2 * 100)).

(** ** Batch prediction (lines 185-220) *)

(** The dictionary of line 201. *)
Definition risk_map : gmap Z string :=
  <[0 := "Low Risk"]> (<[1 := "High Risk"]> ∅).

(** [Series.map(d)]: a value the dictionary does not have becomes NaN.  The
    series mapped here is the integer array written one line above. *)
Definition map_cell (d : gmap Z string) (c : cell) : cell :=
  match c with
  | VInt z => match d !! z with Some s => VStr s | None => VNaN end
  | _ => VNaN
  end.

Definition series_map (d : gmap Z string) (col : list cell) : list cell :=
  map_cell d <$> col.

(** [probs.max(axis=1)]. *)
Definition max_axis1 (probs : list (Q * Q)) : list Q :=
  (λ p : Q * Q, Qmax p.1 p.2) <$> probs.

Definition predictions_file : string := "unknown_predictions.csv".

(** The body of [if st.button("Predict CSV")] (lines 195-217). *)
Definition predict_csv (model : Classifier) (pf : Platform) : script unit :=
  df ← get_csv_df;
  preds ← lift (predict model df);
  probs ← lift (predict_proba model df);
  setitem "prediction" (VInt <$> preds);;
  prediction ← getitem "prediction";
  setitem_series "risk_label" (series_map risk_map prediction);;
  setitem "confidence" (VFloat <$> max_axis1 probs);;
  df ← get_csv_df;
  write_csv pf predictions_file df;;
  draw (StMarkdown "<div class='card'>");;
  draw (StSubheader "🧠 Prediction Results");;
  df ← get_csv_df;
  draw (StDataframe df);;
  df ← get_csv_df;
  draw (StDownloadButton "⬇️ Download unknown_predictions.csv"
          (to_csv pf df) predictions_file "text/csv");;
  draw (StMarkdown "</div>").

(** What is drawn once the upload is parsed (lines 189-194). *)
Definition uploaded_card (df : DataFrame) : list element :=
  [StMarkdown "<div class='card'>"; StSubheader "📄 Uploaded CSV";
   StDataframe df; StMarkdown "</div>"; StButton "📊 Predict CSV"].

(** The body of the [try] (lines 187-217). *)
Definition csv_try_body (model : Classifier) (pf : Platform)
    (uploaded : string) (clicked : bool) : script unit :=
  df ← lift (read_csv pf uploaded);
  bind_csv_df df;;
  draw (StMarkdown "<div class='card'>");;
  draw (StSubheader "📄 Uploaded CSV");;
  df ← get_csv_df;
  draw (StDataframe df);;
  draw (StMarkdown "</div>");;
  draw (StButton "📊 Predict CSV");;
  if clicked then predict_csv model pf else mret tt.

Definition csv_error (e : PyException) : element :=
  StError ("❌ CSV Error: " ++ exc_str e).

(** Lines 185-220. *)
Definition csv_upload (model : Classifier) (pf : Platform)
    (uploaded_file : option string) (clicked : bool) : script unit :=
  match uploaded_file with
  | None => mret tt
  | Some f =>
      try_except (csv_try_body model pf f clicked) (λ e, draw (csv_error e))
  end.

(** ** One run of the page (lines 59-227) *)

Record Interaction := mkInteraction {
  sidebar : Sidebar;
  predict_risk_clicked : bool;
  uploaded_file : option string;
  predict_csv_clicked : bool
}.

(** The script from the title on (lines 59-227), for a pipeline that has
    been loaded. *)
Definition app (model : Classifier) (pf : Platform) (i : Interaction)
  : script unit :=
  draw (StMarkdown
    "<h1 style='text-align:center;'>🎗️ Breast Cancer Risk Prediction</h1>");;
  draw (StText
    "Predict breast cancer risk using clinical and demographic features.");;
  draw StDivider;;
  input ← lift (input_df (sidebar i));
  draw (StSubheader "📥 Input Data");;
  draw (StDataframe input);;
  draw (StButton "🔍 Predict Risk");;
  (if predict_risk_clicked i then predict_risk model input else mret tt);;
  csv_upload model pf (uploaded_file i) (predict_csv_clicked i);;
  draw StDivider;;
  draw (StMarkdown
    "<p style='text-align:center;color:gray;'>Breast Cancer ML Project 🎓</p>").

(** The style sheet of lines 14-48. *)
Definition style_sheet : string :=
  "
<style>
.main {
    background-color: #FFF5F8;
}

section[data-testid=" ++ String double_quote "stSidebar" ++
  String double_quote "] {
    background-color: #FCE4EC;
}

.stButton > button {
    background-color: #E91E63;
    color: white;
    border-radius: 12px;
    font-size: 18px;
    height: 3em;
}

.stButton > button:hover {
    background-color: #D81B60;
}

.card {
    background-color: white;
    padding: 22px;
    border-radius: 18px;
    box-shadow: 0px 4px 18px rgba(0,0,0,0.12);
    margin-bottom: 25px;
}

h1, h2, h3 {
    color: #C2185B;
}
</style>
".

(** One run of the script (lines 7-227).  The page configuration draws
    nothing; the style sheet is drawn; [load_model()] on line 56 returns the
    pipeline or raises what [joblib.load] raises, and no handler surrounds
    it; then the page follows. *)
Definition main (load_model : result Classifier) (pf : Platform)
    (i : Interaction) : script unit :=
  draw (StMarkdown style_sheet);;
  model ← lift load_model;
  app model pf i.

(** ** The batch block in closed form *)

(** The table after the three column assignments of lines 199-203. *)
Definition with_predictions (df : DataFrame) (preds : list Z)
    (probs : list (Q * Q)) : DataFrame :=
  assign_array "confidence" (VFloat <$> max_axis1 probs)
    (assign_series "risk_label" (series_map risk_map (VInt <$> preds))
       (assign_array "prediction" (VInt <$> preds) df)).

(** An array of [given] cells is accepted by a table of [index] rows. *)
Definition fits (given index : nat) : Prop := given = index ∨ index = 0%nat.

#[global] Instance fits_dec given index : Decision (fits given index).
Proof. unfold fits. apply _. Defined.

(** What lines 207-217 draw for the table [out]. *)
Definition results_card (pf : Platform) (out : DataFrame) : list element :=
  [StMarkdown "<div class='card'>"; StSubheader "🧠 Prediction Results";
   StDataframe out;
   StDownloadButton "⬇️ Download unknown_predictions.csv"
     (to_csv pf out) predictions_file "text/csv";
   StMarkdown "</div>"].

(** The world with further elements on the page. *)
Definition drawn (es : list element) (w : World) : World :=
  mkWorld (csv_df w) (page w ++ es) (files w).

(** The places of the batch path where an exception can start: parsing the
    upload; the two calls into the pipeline; the two column assignments
    whose array comes from the pipeline; opening the output file.  After
    the first assignment the table has as many rows as there are
    predictions. *)
Inductive batch_fault (model : Classifier) (pf : Platform) (f : string)
    (w : World) : bool → PyException → Prop :=
| fault_read_csv clicked e :
    read_csv pf f = Raise e →
    batch_fault model pf f w clicked e
| fault_predict df e :
    read_csv pf f = Ok df →
    predict model df = Raise e →
    batch_fault model pf f w true e
| fault_predict_proba df preds e :
    read_csv pf f = Ok df →
    predict model df = Ok preds →
    predict_proba model df = Raise e →
    batch_fault model pf f w true e
| fault_prediction_column df preds probs :
    read_csv pf f = Ok df →
    predict model df = Ok preds →
    predict_proba model df = Ok probs →
    ¬ fits (length preds) (n_rows df) →
    batch_fault model pf f w true (length_mismatch (length preds) (n_rows df))
| fault_confidence_column df preds probs :
    read_csv pf f = Ok df →
    predict model df = Ok preds →
    predict_proba model df = Ok probs →
    fits (length preds) (n_rows df) →
    ¬ fits (length probs) (length preds) →
    batch_fault model pf f w true
      (length_mismatch (length probs) (length preds))
| fault_write df preds probs e :
    read_csv pf f = Ok df →
    predict model df = Ok preds →
    predict_proba model df = Ok probs →
    fits (length preds) (n_rows df) →
    fits (length probs) (length preds) →
    open_error pf (files w) predictions_file = Some e →
    batch_fault model pf f w true e.

(** The block under the button, as one case analysis on what the
    collaborators answer. *)
Definition predict_csv_outcome (model : Classifier) (pf : Platform)
    (df : DataFrame) (pg : list element) (fs : gmap string string)
  : result unit * World :=
  match predict model df with
  | Raise e => (Raise e, mkWorld (Some df) pg fs)
  | Ok preds =>
    match predict_proba model df with
    | Raise e => (Raise e, mkWorld (Some df) pg fs)
    | Ok probs =>
      if decide (fits (length preds) (n_rows df)) then
        if decide (fits (length probs) (length preds)) then
          let out := with_predictions df preds probs in
          match open_error pf fs predictions_file with
          | Some e => (Raise e, mkWorld (Some out) pg fs)
          | None =>
              (Ok tt, mkWorld (Some out) (pg ++ results_card pf out)
                        (<[predictions_file := to_csv pf out]> fs))
          end
        else
          (Raise (length_mismatch (length probs) (length preds)),
           mkWorld
             (Some (assign_series "risk_label"
                      (series_map risk_map (VInt <$> preds))
                      (assign_array "prediction" (VInt <$> preds) df))) pg fs)
      else
        (Raise (length_mismatch (length preds) (n_rows df)),
         mkWorld (Some df) pg fs)
    end
  end.

(** ** Reading the dictionaries and the banner *)

(** A dictionary read as a correspondence between a list of labels and a
    list of codes. *)
Definition dict_total_on (d : gmap string Z) (labels : list string) : Prop :=
  ∀ l, l ∈ labels → ∃ c, d !! l = Some c ∧ dict_getitem d l = Ok c.

Definition dict_injective (d : gmap string Z) : Prop :=
  ∀ l1 l2 c, d !! l1 = Some c → d !! l2 = Some c → l1 = l2.

Definition dict_onto (d : gmap string Z) (labels : list string)
    (codes : list Z) : Prop :=
  (∀ l c, d !! l = Some c → l ∈ labels ∧ c ∈ codes) ∧
  (∀ c, c ∈ codes → ∃ l, l ∈ labels ∧ d !! l = Some c).

(** The text a banner carries. *)
Definition banner_text (e : element) : string :=
  match e with
  | StError body | StSuccess body => body
  | _ => ""
  end.

(** A banner shows the label [l] when its text is an icon, the label and
    the words "of Breast Cancer". *)
Definition banner_shows (e : element) (l : string) : Prop :=
  banner_text e = "⚠️ " ++ l ++ " of Breast Cancer" ∨
  banner_text e = "✅ " ++ l ++ " of Breast Cancer".

(** The label of the single-record path in the words of the specification:
    High Risk when the prediction is 1, Low Risk otherwise. *)
Definition spec_single_label (pred : Z) : string :=
  if decide (pred = 1) then "High Risk" else "Low Risk".

(** ** A small concrete setting *)

(** A pipeline that selects its one feature, [biophx], by name and ignores
    every other column; it raises when the feature is missing. *)
Definition biopsy_label (c : cell) : Z :=
  match c with VInt 1 => 1 | _ => 0 end.

Definition biopsy_proba (c : cell) : Q * Q :=
  match c with VInt 1 => (1#4, 3#4)%Q | _ => (4#5, 1#5)%Q end.

Definition missing_feature : PyException :=
  mkExc "ValueError" "columns are missing: {'biophx'}".

Definition biopsy_model : Classifier :=
  mkClassifier
    (λ df, match get_column "biophx" df with
           | Some col => Ok (biopsy_label <$> col)
           | None => Raise missing_feature
           end)
    (λ df, match get_column "biophx" df with
           | Some col => Ok (biopsy_proba <$> col)
           | None => Raise missing_feature
           end).

(** A plain printer of tables: the header, then one record per row, the
    records separated by semicolons. *)
Definition print_cell (c : cell) : string :=
  match c with
  | VInt z => pretty z
  | VFloat q => pretty (Qnum q) ++ "/" ++ pretty (Zpos (Qden q))
  | VStr s => s
  | VNaN => ""
  end.

Definition print_row (df : DataFrame) (i : nat) : string :=
  String.concat ","
    ((λ c : string * list cell, print_cell (default VNaN (c.2 !! i)))
       <$> columns df).

Definition print_csv (df : DataFrame) : string :=
  String.concat ";"
    (String.concat "," (column_names df) :: (print_row df <$> seq 0 (n_rows df))).

Definition two_patients : DataFrame :=
  mkDataFrame 2 [("biophx", [VInt 1; VInt 0]); ("bmi_group", [VInt 2; VInt 3])].

Definition no_biophx : DataFrame :=
  mkDataFrame 1 [("bmi_group", [VInt 2])].

(** A table that already has a column named [prediction], as a file
    downloaded from an earlier run has. *)
Definition earlier_output : DataFrame :=
  mkDataFrame 2 [("biophx", [VInt 1; VInt 0]); ("prediction", [VInt 0; VInt 0])].

(** An upload with a header and no rows. *)
Definition header_only : DataFrame :=
  mkDataFrame 0 [("biophx", []); ("bmi_group", [])].

(** A parser that knows the four tables above. *)
Definition parse_known (s : string) : result DataFrame :=
  if decide (s = print_csv two_patients) then Ok two_patients
  else if decide (s = print_csv no_biophx) then Ok no_biophx
  else if decide (s = print_csv earlier_output) then Ok earlier_output
  else if decide (s = print_csv header_only) then Ok header_only
  else Raise (mkExc "ParserError" "Error tokenizing data").

Definition toy_platform : Platform :=
  mkPlatform parse_known print_csv (λ _ _, None).

Definition empty_world : World := mkWorld None [] ∅.

(** A working directory in which no file can be opened for writing. *)
Definition permission_denied : PyException :=
  mkExc "PermissionError"
    "[Errno 13] Permission denied: 'unknown_predictions.csv'".

Definition read_only_platform : Platform :=
  mkPlatform parse_known print_csv (λ _ _, Some permission_denied).

(** Every column of a table has one cell per row. *)
Definition aligned (df : DataFrame) : Prop :=
  Forall (λ c : string * list cell, length c.2 = n_rows df) (columns df).

(** The three names the batch block assigns, in the order it assigns them. *)
Definition output_columns : list string :=
  ["prediction"; "risk_label"; "confidence"].

(** A pipeline that was pickled before it was fitted: both calls raise. *)
Definition not_fitted : PyException :=
  mkExc "NotFittedError" "This Pipeline instance is not fitted yet.".

Definition unfitted_model : Classifier :=
  mkClassifier (λ _, Raise not_fitted) (λ _, Raise not_fitted).

(** A selection with a label the menarche dictionary does not have. *)
Definition mistyped_sidebar : Sidebar :=
  {| year := 2013; age_group := 7; race_eth := 1; first_degree_hx := 0;
     biophx := 0; age_menarche_label := "it's";
     age_first_birth_label := "Normal"; menopaus_label := "Pre";
     birads_density := 2; current_hrt := 0; bmi_group := 2 |}.

(** A visit on which nothing is uploaded and no button is pressed, and one
    on which Predict Risk is pressed. *)
Definition idle_visit : Interaction :=
  mkInteraction example_sidebar false None false.

Definition predict_risk_visit : Interaction :=
  mkInteraction example_sidebar true None false.

(** What the run draws before the first button (lines 59-61, 157-161), and
    at its end (lines 223-227). *)
Definition page_head : list element :=
  [StMarkdown
     "<h1 style='text-align:center;'>🎗️ Breast Cancer Risk Prediction</h1>";
   StText
     "Predict breast cancer risk using clinical and demographic features.";
   StDivider].

Definition input_card (input : DataFrame) : list element :=
  [StSubheader "📥 Input Data"; StDataframe input;
   StButton "🔍 Predict Risk"].

Definition page_foot : list element :=
  [StDivider;
   StMarkdown
     "<p style='text-align:center;color:gray;'>Breast Cancer ML Project 🎓</p>"].

(** The input table of the worked example. *)
Definition example_record : DataFrame :=
  mkDataFrame 1
    [("year", [VInt 2013]); ("age_group_5_years", [VInt 7]);
     ("race_eth", [VInt 1]); ("first_degree_hx", [VInt 0]);
     ("age_menarche", [VInt 2]); ("age_first_birth", [VInt 2]);
     ("BIRADS_breast_density", [VInt 2]); ("current_hrt", [VInt 0]);
     ("menopaus", [VInt 1]); ("bmi_group", [VInt 2]);
     ("biophx", [VInt 0])].

(** A pipeline that answers with two rows whatever it is given. *)
Definition two_row_model : Classifier :=
  mkClassifier (λ _, Ok [1; 0]) (λ _, Ok [(1#4, 3#4)%Q; (4#5, 1#5)%Q]).

Definition header_only_done : World :=
  (csv_try_body two_row_model toy_platform
     (print_csv header_only) true empty_world).2.

(** The worlds the two uploads end in when the button is pressed. *)
Definition two_patients_done : World :=
  (csv_try_body biopsy_model toy_platform
     (print_csv two_patients) true empty_world).2.

Definition earlier_output_done : World :=
  (csv_try_body biopsy_model toy_platform
     (print_csv earlier_output) true empty_world).2.

(** ** Running the batch block, step by step *)

Section Columns.

Implicit Types (name : string) (values : list cell) (df : DataFrame).

Lemma lookup_column_replace name values cols :
  name ∈ cols.*1 →
  lookup_column name
    ((λ c : string * list cell,
        if decide (c.1 = name) then (c.1, values) else c) <$> cols)
  = Some values.
Proof.
  induction cols as [|[n c] cols IH]; simpl.
  - intros H. by apply elem_of_nil in H.
  - intros H. destruct (decide (n = name)) as [->|Hne]; simpl.
    + by rewrite decide_True.
    + rewrite decide_False by done. apply IH.
      apply elem_of_cons in H as [H|H]; [congruence|done].
Qed.

Lemma lookup_column_app_fresh name values cols :
  name ∉ cols.*1 →
  lookup_column name (cols ++ [(name, values)]) = Some values.
Proof.
  induction cols as [|[n c] cols IH]; simpl; intros H.
  - by rewrite decide_True.
  - apply not_elem_of_cons in H as [Hne H].
    rewrite decide_False by congruence. by apply IH.
Qed.

Lemma lookup_column_replace_ne name name' values cols :
  name ≠ name' →
  lookup_column name
    ((λ c : string * list cell,
        if decide (c.1 = name') then (c.1, values) else c) <$> cols)
  = lookup_column name cols.
Proof.
  intros Hne. induction cols as [|[n c] cols IH]; simpl; [done|].
  destruct (decide (n = name')) as [->|Hn]; simpl.
  - rewrite !decide_False by congruence. apply IH.
  - destruct (decide (n = name)); [done|apply IH].
Qed.

Lemma lookup_column_app_ne name name' values cols :
  name ≠ name' →
  lookup_column name (cols ++ [(name', values)]) = lookup_column name cols.
Proof.
  intros Hne. induction cols as [|[n c] cols IH]; simpl.
  - by rewrite decide_False by congruence.
  - destruct (decide (n = name)); [done|apply IH].
Qed.

Lemma get_column_set_eq name values df :
  get_column name (set_column name values df) = Some values.
Proof.
  unfold get_column, set_column, column_names; simpl.
  destruct (decide (name ∈ (columns df).*1)).
  - by apply lookup_column_replace.
  - by apply lookup_column_app_fresh.
Qed.

Lemma get_column_set_ne name name' values df :
  name ≠ name' →
  get_column name (set_column name' values df) = get_column name df.
Proof.
  intros Hne. unfold get_column, set_column; simpl.
  destruct (decide (name' ∈ column_names df)).
  - by apply lookup_column_replace_ne.
  - by apply lookup_column_app_ne.
Qed.

Lemma n_rows_set_column name values df :
  n_rows (set_column name values df) = n_rows df.
Proof. done. Qed.

Lemma set_column_fresh name values df :
  name ∉ column_names df →
  set_column name values df =
  mkDataFrame (n_rows df) (columns df ++ [(name, values)]).
Proof. intros H. unfold set_column. by rewrite decide_False. Qed.

Lemma length_reindex k (col : list cell) : length (reindex k col) = k.
Proof.
  unfold reindex. rewrite length_take, length_app, length_replicate. lia.
Qed.

Lemma reindex_same (col : list cell) : reindex (length col) col = col.
Proof. unfold reindex. by rewrite take_app_length. Qed.

Lemma reindex_nil k : reindex k [] = replicate k VNaN.
Proof.
  unfold reindex. simpl. apply take_ge. by rewrite length_replicate.
Qed.

Lemma ensure_valid_index_same k df :
  ¬ (n_rows df = 0%nat ∧ k ≠ 0%nat) → ensure_valid_index k df = df.
Proof. intros H. unfold ensure_valid_index. by rewrite decide_False. Qed.

Lemma n_rows_ensure_valid_index k df :
  fits k (n_rows df) → n_rows (ensure_valid_index k df) = k.
Proof.
  unfold fits, ensure_valid_index. intros H.
  destruct (decide (n_rows df = 0%nat ∧ k ≠ 0%nat)); simpl; [done|].
  destruct H as [->|H]; [done|]. destruct (decide (k = 0%nat)); [lia|tauto].
Qed.

Lemma ensure_valid_index_unfit k df :
  ¬ fits k (n_rows df) →
  ensure_valid_index k df = df ∧ k ≠ n_rows df.
Proof.
  unfold fits. intros H. split.
  - apply ensure_valid_index_same. tauto.
  - tauto.
Qed.

Lemma get_column_ensure_valid_index name k df :
  get_column name (ensure_valid_index k df) =
  (if decide (n_rows df = 0%nat ∧ k ≠ 0%nat) then reindex k else id)
    <$> get_column name df.
Proof.
  unfold ensure_valid_index, get_column.
  destruct (decide (n_rows df = 0%nat ∧ k ≠ 0%nat)); simpl;
    [|by destruct (lookup_column name (columns df))].
  induction (columns df) as [|[n c] cols IH]; simpl; [done|].
  by destruct (decide (n = name)).
Qed.

Lemma assign_series_aligned name values df :
  length values = n_rows df →
  assign_series name values df = set_column name values df.
Proof.
  intros H. unfold assign_series.
  rewrite ensure_valid_index_same by lia. cbv zeta.
  by rewrite <- H, reindex_same.
Qed.

Lemma assign_array_aligned name values df :
  length values = n_rows df →
  assign_array name values df = set_column name values df.
Proof.
  intros H. unfold assign_array. by rewrite ensure_valid_index_same by lia.
Qed.

Lemma n_rows_assign_array name values df :
  fits (length values) (n_rows df) →
  n_rows (assign_array name values df) = length values.
Proof. intros H. unfold assign_array. by apply n_rows_ensure_valid_index. Qed.

End Columns.

Section BatchRun.

Context (model : Classifier) (pf : Platform).

Lemma setitem_run_ok name values df pg fs :
  fits (length values) (n_rows df) →
  setitem name values (mkWorld (Some df) pg fs) =
  (Ok tt, mkWorld (Some (assign_array name values df)) pg fs).
Proof.
  intros H. unfold setitem, mbind, script_bind, get_csv_df; simpl.
  by rewrite decide_True by by rewrite n_rows_ensure_valid_index.
Qed.

Lemma setitem_run_mismatch name values df pg fs :
  ¬ fits (length values) (n_rows df) →
  setitem name values (mkWorld (Some df) pg fs) =
  (Raise (length_mismatch (length values) (n_rows df)),
   mkWorld (Some df) pg fs).
Proof.
  intros H. destruct (ensure_valid_index_unfit _ _ H) as [Hsame Hne].
  unfold setitem, mbind, script_bind, get_csv_df; simpl.
  rewrite Hsame. by rewrite decide_False.
Qed.

Lemma setitem_series_run name values df pg fs :
  setitem_series name values (mkWorld (Some df) pg fs) =
  (Ok tt, mkWorld (Some (assign_series name values df)) pg fs).
Proof. done. Qed.

Lemma length_prediction_column (preds : list Z) :
  length (VInt <$> preds) = length preds.
Proof. apply length_fmap. Qed.

Lemma length_risk_label_column (preds : list Z) :
  length (series_map risk_map (VInt <$> preds)) = length preds.
Proof. unfold series_map. by rewrite !length_fmap. Qed.

Lemma length_confidence_column (probs : list (Q * Q)) :
  length (VFloat <$> max_axis1 probs) = length probs.
Proof. unfold max_axis1. by rewrite !length_fmap. Qed.

Lemma getitem_run name df pg fs :
  getitem name (mkWorld (Some df) pg fs) =
  match get_column name df with
  | Some col => (Ok col, mkWorld (Some df) pg fs)
  | None => (Raise (mkExc "KeyError" (py_repr name)),
             mkWorld (Some df) pg fs)
  end.
Proof.
  unfold getitem, mbind, script_bind, get_csv_df; simpl.
  by destruct (get_column name df).
Qed.

(** After the first two assignments the table has one row per prediction. *)
Lemma n_rows_labelled df (preds : list Z) :
  fits (length preds) (n_rows df) →
  n_rows (assign_series "risk_label" (series_map risk_map (VInt <$> preds))
            (assign_array "prediction" (VInt <$> preds) df)) = length preds.
Proof.
  intros H. rewrite assign_series_aligned.
  - rewrite n_rows_set_column, n_rows_assign_array;
      by rewrite length_prediction_column.
  - rewrite length_risk_label_column, n_rows_assign_array;
      by rewrite length_prediction_column.
Qed.

Lemma predict_csv_run df pg fs :
  predict_csv model pf (mkWorld (Some df) pg fs) =
  predict_csv_outcome model pf df pg fs.
Proof.
  unfold predict_csv, predict_csv_outcome.
  unfold mbind at 1. unfold script_bind at 1. simpl.
  unfold mbind at 1. unfold script_bind at 1. unfold lift at 1.
  destruct (predict model df) as [preds|e]; [|done].
  unfold mbind at 1. unfold script_bind at 1. unfold lift at 1.
  destruct (predict_proba model df) as [probs|e]; [|done].
  unfold mbind at 1. unfold script_bind at 1.
  destruct (decide (fits (length preds) (n_rows df))) as [Hp|Hp]; cycle 1.
  { rewrite setitem_run_mismatch by by rewrite length_prediction_column.
    by rewrite length_prediction_column. }
  rewrite setitem_run_ok by by rewrite length_prediction_column.
  unfold mbind at 1. unfold script_bind at 1. rewrite getitem_run.
  unfold assign_array at 1. rewrite get_column_set_eq.
  fold (assign_array "prediction" (VInt <$> preds) df).
  unfold mbind at 1. unfold script_bind at 1.
  rewrite setitem_series_run.
  unfold mbind at 1. unfold script_bind at 1.
  pose proof (n_rows_labelled df preds Hp) as Hrows.
  destruct (decide (fits (length probs) (length preds))) as [Hq|Hq]; cycle 1.
  { rewrite setitem_run_mismatch
      by by rewrite length_confidence_column, Hrows.
    by rewrite length_confidence_column, Hrows. }
  rewrite setitem_run_ok by by rewrite length_confidence_column, Hrows.
  fold (with_predictions df preds probs).
  unfold mbind, script_bind, get_csv_df, write_csv, draw, results_card; simpl.
  destruct (open_error pf fs predictions_file); [done|].
  simpl. by rewrite <- !app_assoc.
Qed.

(** The [try] body: parse, show the upload, and run the block if asked. *)
Lemma csv_try_body_run f clicked w :
  csv_try_body model pf f clicked w =
  match read_csv pf f with
  | Raise e => (Raise e, w)
  | Ok df =>
      if clicked
      then predict_csv_outcome model pf df (page w ++ uploaded_card df) (files w)
      else (Ok tt, mkWorld (Some df) (page w ++ uploaded_card df) (files w))
  end.
Proof.
  unfold csv_try_body.
  unfold mbind at 1. unfold script_bind at 1. unfold lift at 1.
  destruct (read_csv pf f) as [df|e]; [|done].
  unfold mbind, script_bind, bind_csv_df, draw, get_csv_df, uploaded_card;
    simpl.
  rewrite <- !app_assoc; simpl.
  destruct clicked; [|done].
  apply predict_csv_run.
Qed.

End BatchRun.

(** ** The form encoder *)

Lemma dict_getitem_lookup d l c : d !! l = Some c → dict_getitem d l = Ok c.
Proof. intros H. unfold dict_getitem. by rewrite H. Qed.

Ltac pick_label H :=
  repeat (apply elem_of_cons in H as [->|H]); [..|by apply elem_of_nil in H].

Ltac pair_cases H :=
  repeat (let E := fresh "E" in
          apply elem_of_cons in H as [E|H]; [simplify_eq|]);
  try (by apply elem_of_nil in H).

Ltac dict_cases H :=
  repeat (apply lookup_insert_Some in H as [[<- <-]|[? H]]);
  [..|by rewrite lookup_empty in H].

Lemma age_menarche_lookup l c :
  age_menarche_map !! l = Some c ↔
  (l, c) ∈ [("Late", 0); ("Early", 1); ("Normal", 2)].
Proof.
  split.
  - intros H. unfold age_menarche_map in H. dict_cases H; set_solver.
  - intros H. pair_cases H; reflexivity.
Qed.

Lemma age_first_birth_lookup l c :
  age_first_birth_map !! l = Some c ↔
  (l, c) ∈ [("Early", 1); ("Normal", 2); ("Late", 3); ("Very Late", 4)].
Proof.
  split.
  - intros H. unfold age_first_birth_map in H. dict_cases H; set_solver.
  - intros H. pair_cases H; reflexivity.
Qed.

Lemma menopaus_lookup l c :
  menopaus_map !! l = Some c ↔
  (l, c) ∈ [("Pre", 1); ("Post", 2); ("Peri", 3)].
Proof.
  split.
  - intros H. unfold menopaus_map in H. dict_cases H; set_solver.
  - intros H. pair_cases H; reflexivity.
Qed.

Lemma age_menarche_total : dict_total_on age_menarche_map age_menarche_options.
Proof.
  intros l H. unfold age_menarche_options in H.
  pick_label H; eexists; split; reflexivity.
Qed.

Lemma age_first_birth_total :
  dict_total_on age_first_birth_map age_first_birth_options.
Proof.
  intros l H. unfold age_first_birth_options in H.
  pick_label H; eexists; split; reflexivity.
Qed.

Lemma menopaus_total : dict_total_on menopaus_map menopaus_options.
Proof.
  intros l H. unfold menopaus_options in H.
  pick_label H; eexists; split; reflexivity.
Qed.

Lemma age_menarche_injective : dict_injective age_menarche_map.
Proof.
  intros l1 l2 c H1 H2.
  apply age_menarche_lookup in H1. apply age_menarche_lookup in H2.
  pair_cases H1; pair_cases H2; done.
Qed.

Lemma age_first_birth_injective : dict_injective age_first_birth_map.
Proof.
  intros l1 l2 c H1 H2.
  apply age_first_birth_lookup in H1. apply age_first_birth_lookup in H2.
  pair_cases H1; pair_cases H2; done.
Qed.

Lemma menopaus_injective : dict_injective menopaus_map.
Proof.
  intros l1 l2 c H1 H2.
  apply menopaus_lookup in H1. apply menopaus_lookup in H2.
  pair_cases H1; pair_cases H2; done.
Qed.

Lemma age_menarche_onto :
  dict_onto age_menarche_map age_menarche_options [0; 1; 2].
Proof.
  split.
  - intros l c H. apply age_menarche_lookup in H.
    unfold age_menarche_options. pair_cases H; set_solver.
  - intros c H.
    pick_label H; [exists "Late" | exists "Early" | exists "Normal"];
      (split; [unfold age_menarche_options; set_solver|reflexivity]).
Qed.

Lemma age_first_birth_onto :
  dict_onto age_first_birth_map age_first_birth_options [1; 2; 3; 4].
Proof.
  split.
  - intros l c H. apply age_first_birth_lookup in H.
    unfold age_first_birth_options. pair_cases H; set_solver.
  - intros c H.
    pick_label H; [exists "Early" | exists "Normal" | exists "Late" | exists "Very Late"];
      (split; [unfold age_first_birth_options; set_solver|reflexivity]).
Qed.

Lemma menopaus_onto : dict_onto menopaus_map menopaus_options [1; 2; 3].
Proof.
  split.
  - intros l c H. apply menopaus_lookup in H.
    unfold menopaus_options. pair_cases H; set_solver.
  - intros c H.
    pick_label H; [exists "Pre" | exists "Post" | exists "Peri"];
      (split; [unfold menopaus_options; set_solver|reflexivity]).
Qed.

(** C2: each of the three label dictionaries answers every label its widget
    offers (the lookup returns a code and does not raise), no two labels share
    a code, labels and codes correspond one to one ({0,1,2}, {1,2,3,4} and
    {1,2,3}), and in particular "Early" is 1 for age at menarche and "Normal"
    is 2 for age at first birth. *)
Theorem label_maps_total_bijective :
  (dict_total_on age_menarche_map age_menarche_options ∧
   dict_injective age_menarche_map ∧
   dict_onto age_menarche_map age_menarche_options [0; 1; 2]) ∧
  (dict_total_on age_first_birth_map age_first_birth_options ∧
   dict_injective age_first_birth_map ∧
   dict_onto age_first_birth_map age_first_birth_options [1; 2; 3; 4]) ∧
  (dict_total_on menopaus_map menopaus_options ∧
   dict_injective menopaus_map ∧
   dict_onto menopaus_map menopaus_options [1; 2; 3]) ∧
  dict_getitem age_menarche_map "Early" = Ok 1 ∧
  dict_getitem age_first_birth_map "Normal" = Ok 2.
Proof.
  split_and!; try reflexivity.
  - apply age_menarche_total.
  - apply age_menarche_injective.
  - apply age_menarche_onto.
  - apply age_first_birth_total.
  - apply age_first_birth_injective.
  - apply age_first_birth_onto.
  - apply menopaus_total.
  - apply menopaus_injective.
  - apply menopaus_onto.
Qed.

(** C1: for every selection the widgets allow, the assembled record is a
    table of one row whose columns are the eleven feature columns in the
    trained order, each holding the selected integer or the code of the
    selected label; the worked example gives the row
    2013, 7, 1, 0, 2, 2, 2, 0, 1, 2, 0. *)
Theorem input_df_schema :
  (∀ s, valid_sidebar s →
     ∃ age_menarche age_first_birth menopaus df,
       age_menarche_map !! age_menarche_label s = Some age_menarche ∧
       age_first_birth_map !! age_first_birth_label s = Some age_first_birth ∧
       menopaus_map !! menopaus_label s = Some menopaus ∧
       input_df s = Ok df ∧
       n_rows df = 1%nat ∧
       column_names df = feature_columns ∧
       columns df =
         [("year", [VInt (year s)]);
          ("age_group_5_years", [VInt (age_group s)]);
          ("race_eth", [VInt (race_eth s)]);
          ("first_degree_hx", [VInt (first_degree_hx s)]);
          ("age_menarche", [VInt age_menarche]);
          ("age_first_birth", [VInt age_first_birth]);
          ("BIRADS_breast_density", [VInt (birads_density s)]);
          ("current_hrt", [VInt (current_hrt s)]);
          ("menopaus", [VInt menopaus]);
          ("bmi_group", [VInt (bmi_group s)]);
          ("biophx", [VInt (biophx s)])]) ∧
  valid_sidebar example_sidebar ∧
  input_df example_sidebar =
    Ok (mkDataFrame 1
          [("year", [VInt 2013]); ("age_group_5_years", [VInt 7]);
           ("race_eth", [VInt 1]); ("first_degree_hx", [VInt 0]);
           ("age_menarche", [VInt 2]); ("age_first_birth", [VInt 2]);
           ("BIRADS_breast_density", [VInt 2]); ("current_hrt", [VInt 0]);
           ("menopaus", [VInt 1]); ("bmi_group", [VInt 2]);
           ("biophx", [VInt 0])]).
Proof.
  split_and!; [|apply (bool_decide_unpack _); by vm_compute|reflexivity].
  intros s (_ & _ & _ & _ & _ & Ham & Hafb & Hmp & _).
  destruct (age_menarche_total _ Ham) as (am & Eam & Gam).
  destruct (age_first_birth_total _ Hafb) as (afb & Eafb & Gafb).
  destruct (menopaus_total _ Hmp) as (mp & Emp & Gmp).
  exists am, afb, mp. unfold input_df. rewrite Gam, Gafb, Gmp. simpl.
  eexists. split_and!; [done..|reflexivity| |]; reflexivity.
Qed.

(** The worked example, obtained from the general statement. *)
Lemma input_df_schema_example :
  valid_sidebar example_sidebar ∧
  ∃ age_menarche age_first_birth menopaus df,
    age_menarche_map !! age_menarche_label example_sidebar = Some age_menarche ∧
    age_first_birth_map !! age_first_birth_label example_sidebar
      = Some age_first_birth ∧
    menopaus_map !! menopaus_label example_sidebar = Some menopaus ∧
    input_df example_sidebar = Ok df ∧
    n_rows df = 1%nat ∧
    column_names df = feature_columns ∧
    columns df =
      [("year", [VInt (year example_sidebar)]);
       ("age_group_5_years", [VInt (age_group example_sidebar)]);
       ("race_eth", [VInt (race_eth example_sidebar)]);
       ("first_degree_hx", [VInt (first_degree_hx example_sidebar)]);
       ("age_menarche", [VInt age_menarche]);
       ("age_first_birth", [VInt age_first_birth]);
       ("BIRADS_breast_density", [VInt (birads_density example_sidebar)]);
       ("current_hrt", [VInt (current_hrt example_sidebar)]);
       ("menopaus", [VInt menopaus]);
       ("bmi_group", [VInt (bmi_group example_sidebar)]);
       ("biophx", [VInt (biophx example_sidebar)])].
Proof.
  assert (Hv : valid_sidebar example_sidebar)
    by (apply (bool_decide_unpack _); by vm_compute).
  split; [exact Hv|].
  exact (proj1 input_df_schema example_sidebar Hv).
Defined.

(** ** The batch predictor *)

Section BatchClaims.

Context (model : Classifier) (pf : Platform).

(** A run of the [try] body that ends without raising went through every
    stage, and leaves exactly this world. *)
Lemma batch_success_inv f w w' :
  csv_try_body model pf f true w = (Ok tt, w') →
  ∃ df preds probs,
    read_csv pf f = Ok df ∧
    predict model df = Ok preds ∧
    predict_proba model df = Ok probs ∧
    fits (length preds) (n_rows df) ∧
    fits (length probs) (length preds) ∧
    open_error pf (files w) predictions_file = None ∧
    let out := with_predictions df preds probs in
    w' = mkWorld (Some out)
           ((page w ++ uploaded_card df) ++ results_card pf out)
           (<[predictions_file := to_csv pf out]> (files w)).
Proof.
  rewrite csv_try_body_run. unfold predict_csv_outcome.
  destruct (read_csv pf f) as [df|]; [|done].
  destruct (predict model df) as [preds|] eqn:Hpreds; [|done].
  destruct (predict_proba model df) as [probs|] eqn:Hprobs; [|done].
  destruct (decide (fits (length preds) (n_rows df))); [|done].
  destruct (decide (fits (length probs) (length preds))); [|done].
  destruct (open_error pf (files w) predictions_file) eqn:Ho; [done|].
  intros [= <-]. exists df, preds, probs. by split_and!.
Qed.

(** A table with rows accepts only arrays of that many cells. *)
Lemma fits_rows given index : fits given index → index ≠ 0%nat → given = index.
Proof. unfold fits. lia. Qed.

(** When the pipeline answers with one value per parsed row, the three
    assignments are plain column assignments. *)
Lemma with_predictions_regular df preds probs :
  length preds = n_rows df → length probs = n_rows df →
  with_predictions df preds probs =
  set_column "confidence" (VFloat <$> max_axis1 probs)
    (set_column "risk_label" (series_map risk_map (VInt <$> preds))
       (set_column "prediction" (VInt <$> preds) df)).
Proof.
  intros Hp Hq. unfold with_predictions.
  rewrite (assign_array_aligned "prediction")
    by by rewrite length_prediction_column.
  rewrite assign_series_aligned by by rewrite length_risk_label_column.
  by rewrite assign_array_aligned by by rewrite length_confidence_column.
Qed.

Lemma with_predictions_n_rows df preds probs :
  fits (length preds) (n_rows df) →
  fits (length probs) (length preds) →
  n_rows (with_predictions df preds probs) = length probs.
Proof.
  intros Hp Hq. unfold with_predictions.
  rewrite n_rows_assign_array; rewrite length_confidence_column; [done|].
  by rewrite n_rows_labelled.
Qed.

Lemma with_predictions_confidence df preds probs :
  get_column "confidence" (with_predictions df preds probs)
  = Some (VFloat <$> max_axis1 probs).
Proof. apply get_column_set_eq. Qed.

(** The two columns assigned first, as the last assignment leaves them. *)
Lemma get_column_labelled name df preds probs (col : list cell) :
  name ≠ "confidence" →
  fits (length preds) (n_rows df) →
  fits (length probs) (length preds) →
  length col = length preds →
  get_column name
    (assign_series "risk_label" (series_map risk_map (VInt <$> preds))
       (assign_array "prediction" (VInt <$> preds) df)) = Some col →
  get_column name (with_predictions df preds probs)
  = Some (reindex (length probs) col).
Proof.
  intros Hname Hp Hq Hlen Hcol. unfold with_predictions.
  unfold assign_array at 1. rewrite get_column_set_ne by done.
  rewrite get_column_ensure_valid_index, Hcol.
  rewrite length_confidence_column, n_rows_labelled by done. simpl.
  destruct (decide (length preds = 0%nat ∧ length probs ≠ 0%nat)) as [|Hn];
    [done|].
  simpl. f_equal.
  assert (length probs = length col) as -> by (unfold fits in Hq; lia).
  by rewrite reindex_same.
Qed.

Lemma with_predictions_prediction df preds probs :
  fits (length preds) (n_rows df) →
  fits (length probs) (length preds) →
  get_column "prediction" (with_predictions df preds probs)
  = Some (reindex (length probs) (VInt <$> preds)).
Proof.
  intros Hp Hq.
  apply get_column_labelled; [done..|by rewrite length_prediction_column|].
  rewrite assign_series_aligned.
  - rewrite get_column_set_ne by done. apply get_column_set_eq.
  - rewrite length_risk_label_column, n_rows_assign_array;
      by rewrite length_prediction_column.
Qed.

Lemma with_predictions_risk_label df preds probs :
  fits (length preds) (n_rows df) →
  fits (length probs) (length preds) →
  get_column "risk_label" (with_predictions df preds probs)
  = Some (reindex (length probs) (series_map risk_map (VInt <$> preds))).
Proof.
  intros Hp Hq.
  apply get_column_labelled; [done..|by rewrite length_risk_label_column|].
  rewrite assign_series_aligned.
  - apply get_column_set_eq.
  - rewrite length_risk_label_column, n_rows_assign_array;
      by rewrite length_prediction_column.
Qed.

(** Filling up with NaN and mapping through the dictionary commute: the
    dictionary has no entry for NaN. *)
Lemma reindex_series_map k (col : list cell) :
  reindex k (series_map risk_map col) = series_map risk_map (reindex k col).
Proof.
  unfold reindex, series_map.
  by rewrite fmap_take, fmap_app, fmap_replicate.
Qed.

(** A prediction returned by the pipeline is in its row of the output. *)
Lemma reindex_prediction_lookup (preds : list Z) (probs : list (Q * Q)) i p :
  fits (length probs) (length preds) →
  preds !! i = Some p →
  reindex (length probs) (VInt <$> preds) !! i = Some (VInt p).
Proof.
  intros Hq Hp.
  assert (length preds ≠ 0%nat) as Hne
    by (apply lookup_lt_Some in Hp; lia).
  rewrite (fits_rows _ _ Hq Hne), <- (length_prediction_column preds).
  by rewrite reindex_same, list_lookup_fmap, Hp.
Qed.

Lemma label_of_prediction (c : cell) (p : Z) :
  c = VInt p → p = 0 ∨ p = 1 →
  (p = 0 ↔ map_cell risk_map c = VStr "Low Risk") ∧
  (p = 1 ↔ map_cell risk_map c = VStr "High Risk").
Proof. intros -> [-> | ->]; split; split; (done || discriminate). Qed.

(** C3: after a successful batch run the predictions the pipeline returned
    are the prediction column, row for row; every row of the output has a
    prediction and a risk label; and where the prediction is 0 or 1 it is 0
    exactly when the label is "Low Risk" and 1 exactly when it is
    "High Risk". *)
Theorem risk_label_consistent f w w' df preds :
  csv_try_body model pf f true w = (Ok tt, w') →
  read_csv pf f = Ok df →
  predict model df = Ok preds →
  ∃ out, csv_df w' = Some out ∧
    (preds ≠ [] → n_rows out = length preds) ∧
    (∀ i p, preds !! i = Some p →
       cell_at "prediction" i out = Some (VInt p)) ∧
    ∀ i, (i < n_rows out)%nat →
      ∃ c l,
        cell_at "prediction" i out = Some c ∧
        cell_at "risk_label" i out = Some l ∧
        ∀ p, c = VInt p → p = 0 ∨ p = 1 →
          (p = 0 ↔ l = VStr "Low Risk") ∧ (p = 1 ↔ l = VStr "High Risk").
Proof.
  intros Hrun Hdf Hpreds.
  destruct (batch_success_inv _ _ _ Hrun)
    as (df' & preds' & probs & Hdf' & Hpreds' & _ & Hp & Hq & _ & ->).
  rewrite Hdf in Hdf'. injection Hdf' as <-.
  rewrite Hpreds in Hpreds'. injection Hpreds' as <-.
  eexists; split; [reflexivity|].
  rewrite with_predictions_n_rows by done. unfold cell_at.
  rewrite with_predictions_prediction, with_predictions_risk_label by done.
  simpl. split_and!.
  - intros Hne. apply fits_rows; [done|]. by destruct preds.
  - intros i p Hi. by apply reindex_prediction_lookup.
  - intros i Hi.
    destruct (lookup_lt_is_Some_2 (reindex (length probs) (VInt <$> preds)) i)
      as [c Hc]; [by rewrite length_reindex|].
    exists c, (map_cell risk_map c). split_and!; [done| |].
    + rewrite reindex_series_map. unfold series_map.
      by rewrite list_lookup_fmap, Hc.
    + apply label_of_prediction.
Qed.

(** The confidence column, row by row. *)
Lemma confidence_rows f w w' df probs :
  csv_try_body model pf f true w = (Ok tt, w') →
  read_csv pf f = Ok df →
  predict_proba model df = Ok probs →
  ∃ out, csv_df w' = Some out ∧
    length probs = n_rows out ∧
    ∀ i p_low p_high,
      probs !! i = Some (p_low, p_high) →
      cell_at "confidence" i out = Some (VFloat (Qmax p_low p_high)).
Proof.
  intros Hrun Hdf Hprobs.
  destruct (batch_success_inv _ _ _ Hrun)
    as (df' & preds & probs' & Hdf' & _ & Hprobs' & Hp & Hq & _ & ->).
  rewrite Hdf in Hdf'. injection Hdf' as <-.
  rewrite Hprobs in Hprobs'. injection Hprobs' as <-.
  eexists; split; [reflexivity|].
  split; [by rewrite with_predictions_n_rows|].
  intros i p_low p_high Hi.
  unfold cell_at. rewrite with_predictions_confidence; simpl.
  unfold max_axis1. by rewrite !list_lookup_fmap, Hi.
Qed.

(** C4: after a successful batch run the output has one row for each pair
    [predict_proba] returned, and the confidence of every row is the larger
    of the two probabilities of its pair. *)
Theorem confidence_is_row_max f w w' df probs :
  csv_try_body model pf f true w = (Ok tt, w') →
  read_csv pf f = Ok df →
  predict_proba model df = Ok probs →
  ∃ out, csv_df w' = Some out ∧
    n_rows out = length probs ∧
    ∀ i, (i < n_rows out)%nat →
      ∃ p_low p_high,
        probs !! i = Some (p_low, p_high) ∧
        cell_at "confidence" i out = Some (VFloat (Qmax p_low p_high)).
Proof.
  intros Hrun Hdf Hprobs.
  destruct (confidence_rows f w w' df probs Hrun Hdf Hprobs)
    as (out & Hout & Hlen & Hrows).
  exists out. split_and!; [done..|]. intros i Hi. rewrite <- Hlen in Hi.
  destruct (lookup_lt_is_Some_2 probs i Hi) as [[p_low p_high] Hp].
  exists p_low, p_high. split; [done|]. by apply Hrows.
Qed.

(** The larger of two nonnegative numbers that add up to 1. *)
Lemma max_of_split_unit (p q : Q) :
  (0 <= p)%Q → (0 <= q)%Q → (p + q == 1)%Q → (1#2 <= Qmax p q)%Q.
Proof.
  intros Hp Hq Hsum.
  destruct (Qlt_le_dec p (1#2)) as [Hlt|Hge].
  - apply Qle_trans with q; [lra|apply Q.le_max_r].
  - apply Qle_trans with p; [done|apply Q.le_max_l].
Qed.

(** C10: after a successful batch run, a row whose two probabilities are
    nonnegative and add up to 1 has a confidence of at least one half. *)
Theorem confidence_at_least_half f w w' df probs i p_low p_high :
  csv_try_body model pf f true w = (Ok tt, w') →
  read_csv pf f = Ok df →
  predict_proba model df = Ok probs →
  probs !! i = Some (p_low, p_high) →
  (0 <= p_low)%Q → (0 <= p_high)%Q → (p_low + p_high == 1)%Q →
  ∃ out c, csv_df w' = Some out ∧
    cell_at "confidence" i out = Some (VFloat c) ∧
    c = Qmax p_low p_high ∧ (1#2 <= c)%Q.
Proof.
  intros Hrun Hdf Hprobs Hp Hlow Hhigh Hsum.
  destruct (confidence_rows f w w' df probs Hrun Hdf Hprobs)
    as (out & Hout & _ & Hrows).
  exists out, (Qmax p_low p_high).
  split_and!; [done|by apply Hrows|done|by apply max_of_split_unit].
Qed.

(** On an upload that has rows, a run succeeds only if the pipeline
    answered with one value per row. *)
Lemma batch_success_rows f w w' df preds probs :
  csv_try_body model pf f true w = (Ok tt, w') →
  read_csv pf f = Ok df →
  predict model df = Ok preds →
  predict_proba model df = Ok probs →
  n_rows df ≠ 0%nat →
  length preds = n_rows df ∧ length probs = n_rows df.
Proof.
  intros Hrun Hdf Hpreds Hprobs Hrows.
  destruct (batch_success_inv _ _ _ Hrun)
    as (df' & preds' & probs' & Hdf' & Hpreds' & Hprobs' & Hp & Hq & _).
  rewrite Hdf in Hdf'. injection Hdf' as <-.
  rewrite Hpreds in Hpreds'. injection Hpreds' as <-.
  rewrite Hprobs in Hprobs'. injection Hprobs' as <-.
  unfold fits in *. lia.
Qed.

(** C7, as the code has it: when the upload has no column named
    prediction, risk_label or confidence and the pipeline answers with one
    prediction and one pair of probabilities for each parsed row, a
    successful batch run leaves the uploaded columns as they were parsed,
    in their order, followed by the three new columns prediction,
    risk_label and confidence. *)
Theorem batch_output_columns f w w' df preds probs :
  csv_try_body model pf f true w = (Ok tt, w') →
  read_csv pf f = Ok df →
  predict model df = Ok preds →
  predict_proba model df = Ok probs →
  length preds = n_rows df →
  length probs = n_rows df →
  "prediction" ∉ column_names df →
  "risk_label" ∉ column_names df →
  "confidence" ∉ column_names df →
  ∃ out,
    csv_df w' = Some out ∧
    n_rows out = n_rows df ∧
    column_names out =
      (column_names df ++ ["prediction"; "risk_label"; "confidence"])%list ∧
    columns out =
      (columns df ++
         [("prediction", VInt <$> preds);
          ("risk_label", series_map risk_map (VInt <$> preds));
          ("confidence", VFloat <$> max_axis1 probs)])%list ∧
    ∀ name, name ∈ column_names df → get_column name out = get_column name df.
Proof.
  intros Hrun Hdf Hpreds Hprobs Hlp Hlq Hp Hr Hc.
  destruct (batch_success_inv _ _ _ Hrun)
    as (df' & preds' & probs' & Hdf' & Hpreds' & Hprobs' & _ & _ & _ & ->).
  rewrite Hdf in Hdf'. injection Hdf' as <-.
  rewrite Hpreds in Hpreds'. injection Hpreds' as <-.
  rewrite Hprobs in Hprobs'. injection Hprobs' as <-.
  exists (with_predictions df preds probs).
  rewrite with_predictions_regular by done.
  assert (Hcols :
    columns
      (set_column "confidence" (VFloat <$> max_axis1 probs)
         (set_column "risk_label" (series_map risk_map (VInt <$> preds))
            (set_column "prediction" (VInt <$> preds) df))) =
    (columns df ++
       [("prediction", VInt <$> preds);
        ("risk_label", series_map risk_map (VInt <$> preds));
        ("confidence", VFloat <$> max_axis1 probs)])%list).
  { rewrite (set_column_fresh "prediction") by done.
    rewrite (set_column_fresh "risk_label"); cycle 1.
    { unfold column_names; simpl. rewrite fmap_app, not_elem_of_app.
      split; [done|].
      apply not_elem_of_cons; split; [done|apply not_elem_of_nil]. }
    rewrite (set_column_fresh "confidence"); cycle 1.
    { unfold column_names; simpl. rewrite !fmap_app, !not_elem_of_app.
      split_and!; [done|..];
        (apply not_elem_of_cons; split; [done|apply not_elem_of_nil]). }
    simpl. by rewrite <- !app_assoc. }
  split_and!; try done.
  - unfold column_names. by rewrite Hcols, fmap_app.
  - intros name Hname.
    rewrite !get_column_set_ne; [done|by intros ->..].
Qed.

(** C8: after a successful batch run the content of the file
    unknown_predictions.csv and the data of the download button are the one
    printing, without index, of the table the run ends with. *)
Theorem download_matches_file f w w' :
  csv_try_body model pf f true w = (Ok tt, w') →
  ∃ out new,
    csv_df w' = Some out ∧
    page w' = (page w ++ new)%list ∧
    files w' !! predictions_file = Some (to_csv pf out) ∧
    StDownloadButton "⬇️ Download unknown_predictions.csv"
      (to_csv pf out) predictions_file "text/csv" ∈ new ∧
    ∀ label data name mime,
      StDownloadButton label data name mime ∈ new →
      files w' !! predictions_file = Some data.
Proof.
  intros Hrun.
  destruct (batch_success_inv _ _ _ Hrun)
    as (df & preds & probs & _ & _ & _ & _ & _ & _ & ->).
  exists (with_predictions df preds probs).
  exists (uploaded_card df ++ results_card pf (with_predictions df preds probs))%list.
  simpl. split_and!.
  - done.
  - by rewrite <- !app_assoc.
  - apply lookup_insert_eq.
  - unfold uploaded_card, results_card. simpl.
    do 8 apply list_elem_of_further. apply list_elem_of_here.
  - intros label data name mime Hin. rewrite lookup_insert_eq.
    unfold uploaded_card, results_card in Hin.
    repeat (apply elem_of_cons in Hin as [Hin|Hin]; [by simplify_eq|]).
    by apply elem_of_nil in Hin.
Qed.

(** C9: when the upload parses and [predict] or [predict_proba] raises, the
    run with the button pressed ends as the run without it does (the table
    bound to [csv_df] is the parsed one, no file is written) except for the
    error message, which is the last thing on the page. *)
Theorem failed_inference_is_atomic f w df :
  read_csv pf f = Ok df →
  (∃ e, predict model df = Raise e) ∨ (∃ e, predict_proba model df = Raise e) →
  ∃ e idle,
    (predict model df = Raise e ∨ predict_proba model df = Raise e) ∧
    csv_upload model pf (Some f) false w = (Ok tt, idle) ∧
    csv_upload model pf (Some f) true w =
      (Ok tt, mkWorld (csv_df idle) (page idle ++ [csv_error e]) (files idle)) ∧
    csv_df idle = Some df ∧
    files idle = files w.
Proof.
  intros Hdf Hraise.
  unfold csv_upload, try_except. rewrite !csv_try_body_run, Hdf.
  unfold predict_csv_outcome.
  destruct (predict model df) as [preds|e1] eqn:Hpreds.
  - destruct Hraise as [[e He]|[e He]]; [done|].
    rewrite He. exists e. eexists. split_and!; [by right|done..].
  - exists e1. eexists. split_and!; [by left|done..].
Qed.

(** Whatever the [try] body raises, the handler turns into the message. *)
Lemma csv_upload_handles f clicked w e w1 :
  csv_try_body model pf f clicked w = (Raise e, w1) →
  csv_upload model pf (Some f) clicked w = (Ok tt, drawn [csv_error e] w1).
Proof. intros H. unfold csv_upload, try_except. by rewrite H. Qed.

(** The section never raises. *)
Lemma csv_upload_returns uploaded clicked w :
  (csv_upload model pf uploaded clicked w).1 = Ok tt.
Proof.
  destruct uploaded as [f|]; [|done].
  unfold csv_upload, try_except.
  by destruct (csv_try_body model pf f clicked w) as [[[]|e] w1].
Qed.

(** Each fault makes the [try] body raise that exception. *)
Lemma batch_fault_raises f w clicked e :
  batch_fault model pf f w clicked e →
  ∃ w1, csv_try_body model pf f clicked w = (Raise e, w1).
Proof.
  intros Hf. rewrite csv_try_body_run. unfold predict_csv_outcome.
  destruct Hf as [clicked e Hr|df e Hr Hp|df preds e Hr Hp Hq
                 |df preds probs Hr Hp Hq Hn|df preds probs Hr Hp Hq Hn Hm
                 |df preds probs e Hr Hp Hq Hn Hm Ho].
  - rewrite Hr. by eexists.
  - rewrite Hr, Hp. by eexists.
  - rewrite Hr, Hp, Hq. by eexists.
  - rewrite Hr, Hp, Hq, decide_False by done. by eexists.
  - rewrite Hr, Hp, Hq, decide_True, decide_False by done. by eexists.
  - rewrite Hr, Hp, Hq, !decide_True, Ho by done. by eexists.
Qed.


(** C6: an exception that starts anywhere in the batch path (parsing the
    upload, [predict], [predict_proba], assigning a column, writing the
    file) does not leave the section: the section returns normally and the
    last thing on the page is the message "CSV Error: " followed by the text
    of the exception. *)
Theorem csv_error_caught f w clicked e :
  batch_fault model pf f w clicked e →
  ∃ w1 w',
    csv_try_body model pf f clicked w = (Raise e, w1) ∧
    csv_upload model pf (Some f) clicked w = (Ok tt, w') ∧
    w' = drawn [StError ("❌ CSV Error: " ++ exc_str e)] w1 ∧
    last (page w') = Some (StError ("❌ CSV Error: " ++ exc_str e)).
Proof.
  intros Hf. destruct (batch_fault_raises _ _ _ _ Hf) as [w1 Hw1].
  exists w1, (drawn [csv_error e] w1). split_and!; [done| |done|].
  - by apply csv_upload_handles.
  - simpl. apply last_snoc.
Qed.

End BatchClaims.

(** ** The two label conventions *)

Lemma risk_banner_shows_spec_label pred :
  banner_shows (risk_banner pred) (spec_single_label pred).
Proof.
  unfold banner_shows, risk_banner, spec_single_label.
  destruct (decide (pred = 1)); [by left|by right].
Qed.

(** C5, as the code has it: for a prediction of 0 or 1 the label the
    single-record banner shows is the risk label the batch dictionary
    assigns. *)
Theorem label_conventions_agree (pred : Z) :
  pred = 0 ∨ pred = 1 →
  banner_shows (risk_banner pred) (spec_single_label pred) ∧
  map_cell risk_map (VInt pred) = VStr (spec_single_label pred).
Proof.
  intros Hp. split; [apply risk_banner_shows_spec_label|].
  by destruct Hp as [-> | ->].
Qed.

(** C5 as stated fails at the prediction 2: the banner shows Low Risk, the
    batch dictionary has no entry and the risk label is the missing value. *)
Lemma label_conventions_differ_at_2 :
  banner_shows (risk_banner 2) "Low Risk" ∧
  map_cell risk_map (VInt 2) = VNaN ∧
  ¬ (∀ pred : Z, ∃ l,
       banner_shows (risk_banner pred) l ∧
       map_cell risk_map (VInt pred) = VStr l).
Proof.
  split_and!; [by right|done|].
  intros H. by destruct (H 2) as (l & _ & Hl).
Qed.

Lemma label_conventions_agree_at_1 :
  banner_shows (risk_banner 1) (spec_single_label 1) ∧
  map_cell risk_map (VInt 1) = VStr (spec_single_label 1).
Proof. apply (label_conventions_agree 1). by right. Defined.

(** ** The claims on the small concrete setting *)

Lemma two_patients_run :
  csv_try_body biopsy_model toy_platform (print_csv two_patients) true
    empty_world = (Ok tt, two_patients_done).
Proof. by vm_compute. Qed.

Lemma risk_label_consistent_two_patients :
  ∃ out, csv_df two_patients_done = Some out ∧
    ([1; 0] ≠ [] → n_rows out = length [1; 0]) ∧
    (∀ i p, [1; 0] !! i = Some p →
       cell_at "prediction" i out = Some (VInt p)) ∧
    ∀ i, (i < n_rows out)%nat →
      ∃ c l,
        cell_at "prediction" i out = Some c ∧
        cell_at "risk_label" i out = Some l ∧
        ∀ p, c = VInt p → p = 0 ∨ p = 1 →
          (p = 0 ↔ l = VStr "Low Risk") ∧ (p = 1 ↔ l = VStr "High Risk").
Proof.
  apply (risk_label_consistent biopsy_model toy_platform
           (print_csv two_patients) empty_world two_patients_done
           two_patients [1; 0]); by vm_compute.
Defined.

Lemma confidence_is_row_max_two_patients :
  ∃ out, csv_df two_patients_done = Some out ∧
    n_rows out = length [(1#4, 3#4)%Q; (4#5, 1#5)%Q] ∧
    ∀ i, (i < n_rows out)%nat →
      ∃ p_low p_high,
        [(1#4, 3#4)%Q; (4#5, 1#5)%Q] !! i = Some (p_low, p_high) ∧
        cell_at "confidence" i out = Some (VFloat (Qmax p_low p_high)).
Proof.
  apply (confidence_is_row_max biopsy_model toy_platform
           (print_csv two_patients) empty_world two_patients_done
           two_patients); by vm_compute.
Defined.

Lemma confidence_at_least_half_first_patient :
  ∃ out c, csv_df two_patients_done = Some out ∧
    cell_at "confidence" 0 out = Some (VFloat c) ∧
    c = Qmax (1#4) (3#4) ∧ (1#2 <= c)%Q.
Proof.
  apply (confidence_at_least_half biopsy_model toy_platform
           (print_csv two_patients) empty_world two_patients_done
           two_patients [(1#4, 3#4)%Q; (4#5, 1#5)%Q] 0%nat (1#4) (3#4));
    by vm_compute.
Defined.

Lemma batch_output_columns_two_patients :
  ∃ out,
    csv_df two_patients_done = Some out ∧
    n_rows out = n_rows two_patients ∧
    column_names out =
      (column_names two_patients ++
         ["prediction"; "risk_label"; "confidence"])%list ∧
    columns out =
      (columns two_patients ++
         [("prediction", VInt <$> [1; 0]);
          ("risk_label", series_map risk_map (VInt <$> [1; 0]));
          ("confidence",
           VFloat <$> max_axis1 [(1#4, 3#4)%Q; (4#5, 1#5)%Q])])%list ∧
    ∀ name, name ∈ column_names two_patients →
      get_column name out = get_column name two_patients.
Proof.
  apply (batch_output_columns biopsy_model toy_platform
           (print_csv two_patients) empty_world two_patients_done
           two_patients [1; 0] [(1#4, 3#4)%Q; (4#5, 1#5)%Q]);
    first [by vm_compute | apply (bool_decide_unpack _); by vm_compute].
Defined.

(** C7 as stated also fails on an upload without rows when the pipeline
    answers with rows: the table takes the rows of the answer and the
    uploaded columns, empty before, are filled with NaN. *)
Lemma batch_output_columns_grown :
  read_csv toy_platform (print_csv header_only) = Ok header_only ∧
  csv_try_body two_row_model toy_platform (print_csv header_only) true
    empty_world = (Ok tt, header_only_done) ∧
  ∃ out, csv_df header_only_done = Some out ∧
    n_rows header_only = 0%nat ∧
    n_rows out = 2%nat ∧
    get_column "biophx" header_only = Some [] ∧
    get_column "biophx" out = Some [VNaN; VNaN].
Proof.
  split_and!; [by vm_compute..|].
  eexists. split; [by vm_compute|].
  split_and!; by vm_compute.
Qed.

(** C7 as stated fails on an upload that already has a column named
    prediction: the run succeeds, no column named prediction is added, and
    the uploaded column of that name is overwritten. *)
Lemma batch_output_columns_overwritten :
  read_csv toy_platform (print_csv earlier_output) = Ok earlier_output ∧
  csv_try_body biopsy_model toy_platform (print_csv earlier_output) true
    empty_world = (Ok tt, earlier_output_done) ∧
  ∃ out, csv_df earlier_output_done = Some out ∧
    column_names earlier_output = ["biophx"; "prediction"] ∧
    column_names out = ["biophx"; "prediction"; "risk_label"; "confidence"] ∧
    column_names out ≠
      (column_names earlier_output ++
         ["prediction"; "risk_label"; "confidence"])%list ∧
    get_column "prediction" earlier_output = Some [VInt 0; VInt 0] ∧
    get_column "prediction" out = Some [VInt 1; VInt 0].
Proof.
  split_and!; [by vm_compute..|].
  eexists. split; [by vm_compute|].
  split_and!; by vm_compute.
Qed.

Lemma download_matches_file_two_patients :
  ∃ out new,
    csv_df two_patients_done = Some out ∧
    page two_patients_done = (page empty_world ++ new)%list ∧
    files two_patients_done !! predictions_file
      = Some (to_csv toy_platform out) ∧
    StDownloadButton "⬇️ Download unknown_predictions.csv"
      (to_csv toy_platform out) predictions_file "text/csv" ∈ new ∧
    ∀ label data name mime,
      StDownloadButton label data name mime ∈ new →
      files two_patients_done !! predictions_file = Some data.
Proof.
  apply (download_matches_file biopsy_model toy_platform
           (print_csv two_patients) empty_world two_patients_done).
  by vm_compute.
Defined.

Lemma failed_inference_is_atomic_no_biophx :
  ∃ e idle,
    (predict biopsy_model no_biophx = Raise e ∨
     predict_proba biopsy_model no_biophx = Raise e) ∧
    csv_upload biopsy_model toy_platform (Some (print_csv no_biophx)) false
      empty_world = (Ok tt, idle) ∧
    csv_upload biopsy_model toy_platform (Some (print_csv no_biophx)) true
      empty_world =
      (Ok tt, mkWorld (csv_df idle) (page idle ++ [csv_error e]) (files idle)) ∧
    csv_df idle = Some no_biophx ∧
    files idle = files empty_world.
Proof.
  apply (failed_inference_is_atomic biopsy_model toy_platform
           (print_csv no_biophx) empty_world no_biophx).
  - by vm_compute.
  - left. exists missing_feature. by vm_compute.
Defined.

(** An upload without the column the pipeline needs. *)
Lemma csv_error_caught_no_biophx :
  ∃ w1 w',
    csv_try_body biopsy_model toy_platform (print_csv no_biophx) true
      empty_world = (Raise missing_feature, w1) ∧
    csv_upload biopsy_model toy_platform (Some (print_csv no_biophx)) true
      empty_world = (Ok tt, w') ∧
    w' = drawn [StError ("❌ CSV Error: " ++ exc_str missing_feature)] w1 ∧
    last (page w') =
      Some (StError ("❌ CSV Error: " ++ exc_str missing_feature)).
Proof.
  apply (csv_error_caught biopsy_model toy_platform (print_csv no_biophx)
           empty_world true missing_feature).
  apply (fault_predict _ _ _ _ no_biophx); by vm_compute.
Defined.

(** ** The whole run *)

Lemma input_df_returns s : valid_sidebar s → ∃ df, input_df s = Ok df.
Proof.
  intros (_ & _ & _ & _ & _ & Ham & Hafb & Hmp & _).
  destruct (age_menarche_total _ Ham) as (am & _ & Gam).
  destruct (age_first_birth_total _ Hafb) as (afb & _ & Gafb).
  destruct (menopaus_total _ Hmp) as (mp & _ & Gmp).
  unfold input_df. rewrite Gam, Gafb, Gmp. by eexists.
Qed.

(** With the Predict Risk button at rest the run reaches the footer
    whatever is uploaded: nothing of the batch path escapes. *)
Lemma app_returns model pf i w :
  valid_sidebar (sidebar i) →
  predict_risk_clicked i = false →
  (app model pf i w).1 = Ok tt.
Proof.
  intros Hv Hc. destruct (input_df_returns _ Hv) as [df Hdf].
  unfold app, mbind, script_bind, draw, lift. simpl.
  rewrite Hdf, Hc. simpl.
  match goal with
  | |- context [csv_upload model pf ?u ?c ?w0] =>
      pose proof (csv_upload_returns model pf u c w0) as Hu;
      destruct (csv_upload model pf u c w0) as [[[]|e] w1]
  end; [done|discriminate Hu].
Qed.

(** The single-record path has no handler: what [predict] raises there
    ends the run. *)
Lemma app_predict_risk_uncaught model pf i w df e :
  input_df (sidebar i) = Ok df →
  predict_risk_clicked i = true →
  predict model df = Raise e →
  (app model pf i w).1 = Raise e.
Proof.
  intros Hdf Hc He.
  unfold app, mbind, script_bind, draw, lift. simpl.
  rewrite Hdf, Hc. simpl.
  unfold predict_risk, mbind, script_bind, lift. by rewrite He.
Qed.

(** ** More on the form encoder *)

Lemma dict_getitem_Ok d l c : dict_getitem d l = Ok c ↔ d !! l = Some c.
Proof.
  unfold dict_getitem. destruct (d !! l); split; intros H; by simplify_eq.
Qed.

Lemma dict_getitem_missing d l :
  d !! l = None → dict_getitem d l = Raise (mkExc "KeyError" (py_repr l)).
Proof. intros H. unfold dict_getitem. by rewrite H. Qed.

Lemma lookup_outside d labels codes l :
  dict_onto d labels codes → l ∉ labels → d !! l = None.
Proof.
  intros [Hin _] Hl. destruct (d !! l) as [c|] eqn:E; [|done].
  by destruct (Hin l c E).
Qed.

(** X1: the input table is assembled exactly when the three labels are
    among the options of their widgets; the integer selections are passed
    through as they come. *)
Theorem input_df_succeeds_iff s :
  (∃ df, input_df s = Ok df) ↔
  age_menarche_label s ∈ age_menarche_options ∧
  age_first_birth_label s ∈ age_first_birth_options ∧
  menopaus_label s ∈ menopaus_options.
Proof.
  split.
  - intros [df H]. unfold input_df in H.
    destruct (dict_getitem age_menarche_map (age_menarche_label s))
      as [a|] eqn:Ea; [|done].
    destruct (dict_getitem age_first_birth_map (age_first_birth_label s))
      as [b|] eqn:Eb; [|done].
    destruct (dict_getitem menopaus_map (menopaus_label s))
      as [c|] eqn:Ec; [|done].
    apply dict_getitem_Ok in Ea, Eb, Ec.
    split_and!.
    + by destruct (proj1 age_menarche_onto _ _ Ea).
    + by destruct (proj1 age_first_birth_onto _ _ Eb).
    + by destruct (proj1 menopaus_onto _ _ Ec).
  - intros (Ha & Hb & Hc).
    destruct (age_menarche_total _ Ha) as (a & _ & Ga).
    destruct (age_first_birth_total _ Hb) as (b & _ & Gb).
    destruct (menopaus_total _ Hc) as (c & _ & Gc).
    unfold input_df. rewrite Ga, Gb, Gc. by eexists.
Qed.

(** X2: a label of ASCII characters that is outside its dictionary makes
    the assembly raise [KeyError] with the [repr] of the label as its text
    (the label between quotes, its quotes, backslashes and control
    characters escaped); the dictionaries are consulted in the order
    menarche, first birth, menopause, and the first miss is the one
    reported. *)
Theorem input_df_key_error s :
  (ascii_only (age_menarche_label s) →
   age_menarche_label s ∉ age_menarche_options →
   input_df s = Raise (mkExc "KeyError" (py_repr (age_menarche_label s)))) ∧
  (ascii_only (age_first_birth_label s) →
   age_menarche_label s ∈ age_menarche_options →
   age_first_birth_label s ∉ age_first_birth_options →
   input_df s =
     Raise (mkExc "KeyError" (py_repr (age_first_birth_label s)))) ∧
  (ascii_only (menopaus_label s) →
   age_menarche_label s ∈ age_menarche_options →
   age_first_birth_label s ∈ age_first_birth_options →
   menopaus_label s ∉ menopaus_options →
   input_df s = Raise (mkExc "KeyError" (py_repr (menopaus_label s)))).
Proof.
  split_and!.
  - intros _ Ha. unfold input_df.
    by rewrite (dict_getitem_missing _ _
                  (lookup_outside _ _ _ _ age_menarche_onto Ha)).
  - intros _ Ha Hb. destruct (age_menarche_total _ Ha) as (a & _ & Ga).
    unfold input_df. rewrite Ga. simpl.
    by rewrite (dict_getitem_missing _ _
                  (lookup_outside _ _ _ _ age_first_birth_onto Hb)).
  - intros _ Ha Hb Hc. destruct (age_menarche_total _ Ha) as (a & _ & Ga).
    destruct (age_first_birth_total _ Hb) as (b & _ & Gb).
    unfold input_df. rewrite Ga, Gb. simpl.
    by rewrite (dict_getitem_missing _ _
                  (lookup_outside _ _ _ _ menopaus_onto Hc)).
Qed.

(** X3: the encoding loses nothing: two selections that give the same input
    table are the same selection. *)
Theorem input_df_injective s1 s2 df :
  input_df s1 = Ok df → input_df s2 = Ok df → s1 = s2.
Proof.
  unfold input_df. intros H1 H2.
  destruct (dict_getitem age_menarche_map (age_menarche_label s1))
    as [a1|] eqn:Ea1; [|done].
  destruct (dict_getitem age_first_birth_map (age_first_birth_label s1))
    as [b1|] eqn:Eb1; [|done].
  destruct (dict_getitem menopaus_map (menopaus_label s1))
    as [c1|] eqn:Ec1; [|done].
  destruct (dict_getitem age_menarche_map (age_menarche_label s2))
    as [a2|] eqn:Ea2; [|done].
  destruct (dict_getitem age_first_birth_map (age_first_birth_label s2))
    as [b2|] eqn:Eb2; [|done].
  destruct (dict_getitem menopaus_map (menopaus_label s2))
    as [c2|] eqn:Ec2; [|done].
  simpl in H1, H2. rewrite <- H2 in H1. clear H2.
  apply dict_getitem_Ok in Ea1, Eb1, Ec1, Ea2, Eb2, Ec2.
  injection H1 as Hy Hg Hr Hf Ha Hb Hd Hh Hm Hi Hp. subst a2 b2 c2.
  pose proof (age_menarche_injective _ _ _ Ea1 Ea2) as La.
  pose proof (age_first_birth_injective _ _ _ Eb1 Eb2) as Lb.
  pose proof (menopaus_injective _ _ _ Ec1 Ec2) as Lc.
  destruct s1, s2; simpl in *. by subst.
Qed.

Lemma input_df_injective_example :
  example_sidebar = example_sidebar.
Proof.
  apply (input_df_injective example_sidebar example_sidebar
           (mkDataFrame 1
              [("year", [VInt 2013]); ("age_group_5_years", [VInt 7]);
               ("race_eth", [VInt 1]); ("first_degree_hx", [VInt 0]);
               ("age_menarche", [VInt 2]); ("age_first_birth", [VInt 2]);
               ("BIRADS_breast_density", [VInt 2]); ("current_hrt", [VInt 0]);
               ("menopaus", [VInt 1]); ("bmi_group", [VInt 2]);
               ("biophx", [VInt 0])])); reflexivity.
Defined.

(** ** The display labels of the options *)

Lemma birads_density_format_lookup x l :
  birads_density_format !! x = Some l ↔
  (x, l) ∈ [(1, "Fatty"); (2, "Scattered"); (3, "Heterogeneously Dense");
            (4, "Extremely Dense")].
Proof.
  split.
  - intros H. unfold birads_density_format in H.
    repeat (apply lookup_insert_Some in H as [[<- <-]|[? H]];
            [set_unfold; tauto|]).
    by rewrite lookup_empty in H.
  - intros H. pair_cases H; reflexivity.
Qed.

Lemma bmi_group_format_lookup x l :
  bmi_group_format !! x = Some l ↔
  (x, l) ∈ [(1, "Underweight"); (2, "Normal"); (3, "Overweight");
            (4, "Obese")].
Proof.
  split.
  - intros H. unfold bmi_group_format in H.
    repeat (apply lookup_insert_Some in H as [[<- <-]|[? H]];
            [set_unfold; tauto|]).
    by rewrite lookup_empty in H.
  - intros H. pair_cases H; reflexivity.
Qed.

Lemma format_with_Ok d x l : format_with d x = Ok l ↔ d !! x = Some l.
Proof.
  unfold format_with. destruct (d !! x); split; intros H; by simplify_eq.
Qed.

(** X4: the display functions of the selectboxes.  The BIRADS and BMI
    dictionaries have a label for an option exactly when it is one of the
    four the widget offers (so drawing the widget raises no [KeyError]),
    and no two options share a label; the yes/no function shows "No" for 0
    and only for 0, so the two options of a yes/no widget read
    differently. *)
Theorem format_funcs_label_options :
  (∀ x, (∃ l, format_with birads_density_format x = Ok l) ↔
        x ∈ birads_density_options) ∧
  (∀ x y l, format_with birads_density_format x = Ok l →
            format_with birads_density_format y = Ok l → x = y) ∧
  (∀ x, (∃ l, format_with bmi_group_format x = Ok l) ↔
        x ∈ bmi_group_options) ∧
  (∀ x y l, format_with bmi_group_format x = Ok l →
            format_with bmi_group_format y = Ok l → x = y) ∧
  (∀ x, yes_no x = "No" ↔ x = 0) ∧
  (∀ x, x ≠ 0 → yes_no x = "Yes").
Proof.
  split_and!.
  - intros x. split.
    + intros [l H]. apply format_with_Ok, birads_density_format_lookup in H.
      unfold birads_density_options. pair_cases H; set_unfold; tauto.
    + intros H. unfold birads_density_options in H.
      pick_label H; by eexists.
  - intros x y l Hx Hy.
    apply format_with_Ok, birads_density_format_lookup in Hx, Hy.
    pair_cases Hx; pair_cases Hy; done.
  - intros x. split.
    + intros [l H]. apply format_with_Ok, bmi_group_format_lookup in H.
      unfold bmi_group_options. pair_cases H; set_unfold; tauto.
    + intros H. unfold bmi_group_options in H.
      pick_label H; by eexists.
  - intros x y l Hx Hy.
    apply format_with_Ok, bmi_group_format_lookup in Hx, Hy.
    pair_cases Hx; pair_cases Hy; done.
  - intros x. unfold yes_no. by destruct (decide (x = 0)).
  - intros x Hx. unfold yes_no. by rewrite decide_False.
Qed.

(** ** More on the batch predictor *)

Section ColumnInvariants.

Implicit Types (name : string) (values : list cell) (df : DataFrame).

Lemma column_names_replace name values (cols : list (string * list cell)) :
  ((λ c : string * list cell,
      if decide (c.1 = name) then (c.1, values) else c) <$> cols).*1 = cols.*1.
Proof.
  induction cols as [|[n c] cols IH]; [done|].
  rewrite !fmap_cons. f_equal; [|apply IH].
  simpl. by destruct (decide (n = name)).
Qed.

Lemma column_names_set_column name values df :
  column_names (set_column name values df) =
  (column_names df ++
     if decide (name ∈ column_names df) then [] else [name])%list.
Proof.
  unfold set_column.
  destruct (decide (name ∈ column_names df)); unfold column_names;
    cbn [columns].
  - by rewrite column_names_replace, app_nil_r.
  - by rewrite fmap_app.
Qed.

Lemma aligned_set_column name values df :
  aligned df → length values = n_rows df →
  aligned (set_column name values df).
Proof.
  unfold aligned, set_column; simpl. intros Hdf Hlen.
  destruct (decide (name ∈ column_names df)).
  - apply Forall_fmap. eapply Forall_impl; [exact Hdf|].
    intros [n c] Hc; simpl in *. by destruct (decide (n = name)).
  - apply Forall_app. split; [done|]. by apply Forall_singleton.
Qed.

Lemma NoDup_set_column name values df :
  NoDup (column_names df) → NoDup (column_names (set_column name values df)).
Proof.
  intros Hdf. rewrite column_names_set_column.
  destruct (decide (name ∈ column_names df)).
  - by rewrite app_nil_r.
  - apply NoDup_app. split_and!; [done| |apply NoDup_singleton].
    intros x Hx Hx'. apply list_elem_of_singleton in Hx'. by subst.
Qed.

Lemma column_names_ensure_valid_index k df :
  column_names (ensure_valid_index k df) = column_names df.
Proof.
  unfold ensure_valid_index, column_names.
  destruct (decide (n_rows df = 0%nat ∧ k ≠ 0%nat)); [|done].
  cbn [columns]. rewrite <- list_fmap_compose. by apply list_fmap_ext.
Qed.

Lemma column_names_assign_array name values df :
  column_names (assign_array name values df) =
  (column_names df ++
     if decide (name ∈ column_names df) then [] else [name])%list.
Proof.
  unfold assign_array.
  by rewrite column_names_set_column, column_names_ensure_valid_index.
Qed.

Lemma column_names_assign_series name values df :
  column_names (assign_series name values df) =
  (column_names df ++
     if decide (name ∈ column_names df) then [] else [name])%list.
Proof.
  unfold assign_series. cbv zeta.
  by rewrite column_names_set_column, column_names_ensure_valid_index.
Qed.

Lemma aligned_ensure_valid_index k df :
  aligned df → aligned (ensure_valid_index k df).
Proof.
  unfold aligned, ensure_valid_index. intros Hdf.
  destruct (decide (n_rows df = 0%nat ∧ k ≠ 0%nat)); [|done].
  cbn [columns n_rows]. apply Forall_fmap, Forall_true.
  intros c. simpl. apply length_reindex.
Qed.

Lemma aligned_assign_array name values df :
  aligned df → fits (length values) (n_rows df) →
  aligned (assign_array name values df).
Proof.
  intros Hdf Hfits. unfold assign_array.
  apply aligned_set_column; [by apply aligned_ensure_valid_index|].
  by rewrite n_rows_ensure_valid_index.
Qed.

Lemma aligned_assign_series name values df :
  aligned df → aligned (assign_series name values df).
Proof.
  intros Hdf. unfold assign_series. cbv zeta.
  apply aligned_set_column; [by apply aligned_ensure_valid_index|].
  apply length_reindex.
Qed.

Lemma aligned_with_predictions df preds probs :
  aligned df →
  fits (length preds) (n_rows df) → fits (length probs) (length preds) →
  aligned (with_predictions df preds probs).
Proof.
  intros Hdf Hp Hq. unfold with_predictions.
  apply aligned_assign_array.
  - apply aligned_assign_series, aligned_assign_array;
      [done|by rewrite length_prediction_column].
  - by rewrite length_confidence_column, n_rows_labelled.
Qed.

Lemma NoDup_with_predictions df preds probs :
  NoDup (column_names df) →
  NoDup (column_names (with_predictions df preds probs)).
Proof.
  intros Hdf. unfold with_predictions, assign_array, assign_series. cbv zeta.
  apply NoDup_set_column. rewrite column_names_ensure_valid_index.
  apply NoDup_set_column. rewrite column_names_ensure_valid_index.
  apply NoDup_set_column. by rewrite column_names_ensure_valid_index.
Qed.

Lemma column_names_with_predictions df preds probs :
  column_names (with_predictions df preds probs) =
  (column_names df ++
     filter (λ n, n ∉ column_names df) output_columns)%list.
Proof.
  unfold with_predictions, output_columns.
  rewrite column_names_assign_array, column_names_assign_series,
    column_names_assign_array.
  rewrite !filter_cons, filter_nil.
  destruct (decide ("prediction" ∈ column_names df)) as [P|P];
  destruct (decide ("risk_label" ∈ column_names df)) as [R|R];
  destruct (decide ("confidence" ∈ column_names df)) as [C|C];
  repeat case_decide; simpl; rewrite ?app_nil_r, <- ?app_assoc; simpl;
    try done; exfalso; set_unfold; intuition congruence.
Qed.

(** A column the batch block does not assign: untouched, or filled with
    NaN when the table took a new index. *)
Lemma get_column_assign_array_ne name name' values df :
  name ≠ name' →
  get_column name (assign_array name' values df) =
  (if decide (n_rows df = 0%nat ∧ length values ≠ 0%nat)
   then reindex (length values) else id) <$> get_column name df.
Proof.
  intros Hne. unfold assign_array.
  by rewrite get_column_set_ne, get_column_ensure_valid_index.
Qed.

Lemma get_column_with_predictions_other name df preds probs :
  name ∉ output_columns →
  fits (length preds) (n_rows df) → fits (length probs) (length preds) →
  get_column name (with_predictions df preds probs) =
  if decide (length probs = n_rows df) then get_column name df
  else reindex (length probs) <$> get_column name df.
Proof.
  intros Hname Hp Hq. unfold output_columns in Hname.
  apply not_elem_of_cons in Hname as [H1 Hname].
  apply not_elem_of_cons in Hname as [H2 Hname].
  apply not_elem_of_cons in Hname as [H3 _].
  unfold with_predictions.
  rewrite get_column_assign_array_ne by done.
  rewrite length_confidence_column, n_rows_labelled by done.
  rewrite assign_series_aligned; cycle 1.
  { rewrite length_risk_label_column, n_rows_assign_array;
      by rewrite length_prediction_column. }
  rewrite get_column_set_ne, get_column_assign_array_ne by done.
  rewrite length_prediction_column.
  unfold fits in Hp, Hq.
  destruct (get_column name df) as [col|]; simpl;
    repeat case_decide; simpl; try done; try lia.
  all: f_equal; f_equal; lia.
Qed.

Lemma label_missing (c : cell) :
  map_cell risk_map c = VNaN ↔ c ≠ VInt 0 ∧ c ≠ VInt 1.
Proof.
  destruct c as [p| | |]; simpl; try (by split).
  unfold risk_map.
  destruct (decide (p = 0)) as [->|H0]; [by split; [|intros []]|].
  destruct (decide (p = 1)) as [->|H1]; [by split; [|intros []]|].
  rewrite !lookup_insert_ne, lookup_empty by done.
  split; [|done]. intros _. split; congruence.
Qed.

Lemma risk_label_missing (p : Z) :
  map_cell risk_map (VInt p) = VNaN ↔ p ≠ 0 ∧ p ≠ 1.
Proof.
  unfold map_cell, risk_map.
  destruct (decide (p = 0)) as [->|H0]; [by split; [|intros []]|].
  destruct (decide (p = 1)) as [->|H1]; [by split; [|intros []]|].
  by rewrite !lookup_insert_ne, lookup_empty by done.
Qed.

End ColumnInvariants.

Section BatchBehaviour.

Context (model : Classifier) (pf : Platform).


(** X6: for every upload that is predicted successfully, the names of the
    output columns are the uploaded names, in their order, followed by those
    of prediction, risk_label, confidence that the upload did not have; a
    name the upload had keeps its place.  A column with another name than
    these three is unchanged when the output has the rows of the upload, and
    is the uploaded column filled with NaN over the new rows otherwise. *)
Theorem batch_output_names f w w' df :
  csv_try_body model pf f true w = (Ok tt, w') →
  read_csv pf f = Ok df →
  ∃ out, csv_df w' = Some out ∧
    column_names out =
      (column_names df ++
         filter (λ n, n ∉ column_names df) output_columns)%list ∧
    ∀ name, name ∉ output_columns →
      get_column name out =
      if decide (n_rows out = n_rows df) then get_column name df
      else reindex (n_rows out) <$> get_column name df.
Proof.
  intros Hrun Hdf.
  destruct (batch_success_inv _ _ _ _ _ Hrun)
    as (df' & preds & probs & Hdf' & _ & _ & Hp & Hq & _ & ->).
  rewrite Hdf in Hdf'. injection Hdf' as <-.
  eexists. split; [reflexivity|]. split.
  - apply column_names_with_predictions.
  - intros name Hname. rewrite with_predictions_n_rows by done.
    by apply get_column_with_predictions_other.
Qed.

(** X7: after a successful batch run the predictions the pipeline returned
    are the prediction column, row for row, and the risk label of a row is
    the missing value exactly when the prediction of that row is neither
    the integer 0 nor the integer 1. *)
Theorem risk_label_missing_iff f w w' df preds :
  csv_try_body model pf f true w = (Ok tt, w') →
  read_csv pf f = Ok df →
  predict model df = Ok preds →
  ∃ out, csv_df w' = Some out ∧
    (∀ i p, preds !! i = Some p →
       cell_at "prediction" i out = Some (VInt p)) ∧
    ∀ i, (i < n_rows out)%nat →
      ∃ c l,
        cell_at "prediction" i out = Some c ∧
        cell_at "risk_label" i out = Some l ∧
        (l = VNaN ↔ c ≠ VInt 0 ∧ c ≠ VInt 1).
Proof.
  intros Hrun Hdf Hpreds.
  destruct (batch_success_inv _ _ _ _ _ Hrun)
    as (df' & preds' & probs & Hdf' & Hpreds' & _ & Hp & Hq & _ & ->).
  rewrite Hdf in Hdf'. injection Hdf' as <-.
  rewrite Hpreds in Hpreds'. injection Hpreds' as <-.
  eexists; split; [reflexivity|].
  rewrite with_predictions_n_rows by done. unfold cell_at.
  rewrite with_predictions_prediction, with_predictions_risk_label by done.
  simpl. split.
  - intros i p Hi. by apply reindex_prediction_lookup.
  - intros i Hi.
    destruct (lookup_lt_is_Some_2 (reindex (length probs) (VInt <$> preds)) i)
      as [c Hc]; [by rewrite length_reindex|].
    exists c, (map_cell risk_map c). split_and!; [done| |].
    + rewrite reindex_series_map. unfold series_map.
      by rewrite list_lookup_fmap, Hc.
    + apply label_missing.
Qed.

(** X8: a successful batch run keeps a table in shape: the output has at
    least the rows of the parsed upload, and exactly those when the upload
    has rows; the columns prediction, risk_label and confidence are there
    with one cell per row; if every uploaded column has one cell per row, so
    has every output column; if the uploaded names are pairwise different,
    so are the output names. *)
Theorem batch_output_shape f w w' df :
  csv_try_body model pf f true w = (Ok tt, w') →
  read_csv pf f = Ok df →
  ∃ out, csv_df w' = Some out ∧
    (n_rows df ≤ n_rows out)%nat ∧
    (n_rows df ≠ 0%nat → n_rows out = n_rows df) ∧
    (∀ name, name ∈ output_columns →
       ∃ col, get_column name out = Some col ∧ length col = n_rows out) ∧
    (aligned df → aligned out) ∧
    (NoDup (column_names df) → NoDup (column_names out)).
Proof.
  intros Hrun Hdf.
  destruct (batch_success_inv _ _ _ _ _ Hrun)
    as (df' & preds & probs & Hdf' & _ & _ & Hp & Hq & _ & ->).
  rewrite Hdf in Hdf'. injection Hdf' as <-.
  eexists. split; [reflexivity|].
  rewrite with_predictions_n_rows by done. split_and!.
  - unfold fits in *. lia.
  - unfold fits in *. lia.
  - intros name Hname. unfold output_columns in Hname.
    apply elem_of_cons in Hname as [->|Hname];
      [|apply elem_of_cons in Hname as [->|Hname];
        [|apply list_elem_of_singleton in Hname as ->]].
    + rewrite with_predictions_prediction by done.
      eexists. split; [done|apply length_reindex].
    + rewrite with_predictions_risk_label by done.
      eexists. split; [done|apply length_reindex].
    + rewrite with_predictions_confidence.
      eexists. split; [done|apply length_confidence_column].
  - intros Ha. by apply aligned_with_predictions.
  - apply NoDup_with_predictions.
Qed.


(** X10: when the output file cannot be opened for writing, the three
    columns have been computed and are in the table bound to [csv_df], yet
    the page shows only the uploaded table and the error message: neither
    the results nor a download button, and no file is written. *)
Theorem write_failure_hides_results f w df preds probs e :
  read_csv pf f = Ok df →
  predict model df = Ok preds →
  predict_proba model df = Ok probs →
  length preds = n_rows df →
  length probs = n_rows df →
  open_error pf (files w) predictions_file = Some e →
  csv_upload model pf (Some f) true w =
    (Ok tt,
     mkWorld (Some (with_predictions df preds probs))
       ((page w ++ uploaded_card df) ++ [csv_error e])
       (files w)).
Proof.
  intros Hdf Hp Hq Hlp Hlq Ho.
  unfold csv_upload, try_except. rewrite csv_try_body_run, Hdf.
  unfold predict_csv_outcome.
  rewrite Hp, Hq.
  rewrite (decide_True (P := fits (length preds) (n_rows df))) by by left.
  rewrite (decide_True (P := fits (length probs) (length preds)))
    by (left; congruence).
  by rewrite Ho.
Qed.

(** X11: whatever is uploaded and whatever happens, the section touches no
    file other than unknown_predictions.csv. *)
Theorem other_files_untouched uploaded clicked w path :
  path ≠ predictions_file →
  files (csv_upload model pf uploaded clicked w).2 !! path = files w !! path.
Proof.
  intros Hpath. destruct uploaded as [f|]; [|done].
  unfold csv_upload, try_except. rewrite csv_try_body_run.
  unfold predict_csv_outcome.
  destruct (read_csv pf f) as [df|]; [|done].
  destruct clicked; [|done].
  destruct (predict model df) as [preds|]; [|done].
  destruct (predict_proba model df) as [probs|]; [|done].
  destruct (decide (fits (length preds) (n_rows df))); [|done].
  destruct (decide (fits (length probs) (length preds))); [|done].
  destruct (open_error pf (files w) predictions_file); [done|].
  simpl. by rewrite lookup_insert_ne.
Qed.


End BatchBehaviour.

(** With the button at rest the section leaves the files alone. *)
Lemma csv_upload_idle_files model pf uploaded w :
  files (csv_upload model pf uploaded false w).2 = files w.
Proof.
  destruct uploaded as [f|]; [|done].
  unfold csv_upload, try_except. rewrite csv_try_body_run.
  by destruct (read_csv pf f).
Qed.

(** X12: while the Predict CSV button is at rest the pipeline is not
    consulted and nothing is written: the section does the same for any two
    pipelines, and leaves the files as they were. *)
Theorem idle_upload_ignores_model m1 m2 pf uploaded w :
  csv_upload m1 pf uploaded false w = csv_upload m2 pf uploaded false w ∧
  files (csv_upload m1 pf uploaded false w).2 = files w.
Proof.
  split; [|apply csv_upload_idle_files].
  destruct uploaded as [f|]; [|done].
  unfold csv_upload, try_except. rewrite !csv_try_body_run.
  by destruct (read_csv pf f).
Qed.

(** ** More on the whole run *)

Section WholeRun.

Context (model : Classifier) (pf : Platform).

(** The run, stage by stage. *)
Lemma app_run i w :
  app model pf i w =
  match input_df (sidebar i) with
  | Raise e => (Raise e, drawn page_head w)
  | Ok input =>
      let w0 := drawn (page_head ++ input_card input) w in
      match (if predict_risk_clicked i then predict_risk model input
             else mret tt) w0 with
      | (Raise e, w1) => (Raise e, w1)
      | (Ok _, w1) =>
          match csv_upload model pf (uploaded_file i)
                  (predict_csv_clicked i) w1 with
          | (Raise e, w2) => (Raise e, w2)
          | (Ok _, w2) => (Ok tt, drawn page_foot w2)
          end
      end
  end.
Proof.
  unfold app, mbind, script_bind, draw, lift, drawn, page_head, input_card,
    page_foot. simpl.
  destruct (input_df (sidebar i)) as [input|e]; simpl;
    [|by rewrite <- !app_assoc].
  rewrite <- !app_assoc. simpl.
  destruct ((if predict_risk_clicked i then predict_risk model input
             else mret ()) _) as [[[]|e] w1]; [|done].
  destruct (csv_upload model pf (uploaded_file i) (predict_csv_clicked i) w1)
    as [[[]|e] w2]; [|done].
  simpl. by rewrite <- !app_assoc.
Qed.

(** The single-record block draws; it binds no table and writes no file. *)
Lemma predict_risk_frame input w :
  csv_df (predict_risk model input w).2 = csv_df w ∧
  files (predict_risk model input w).2 = files w.
Proof.
  unfold predict_risk, mbind, script_bind, lift, draw.
  destruct (predict model input) as [preds|]; [|done].
  destruct (first_item preds); [|done].
  destruct (predict_proba model input) as [probs|]; [|done].
  by destruct (first_item probs).
Qed.

(** X13: the only file the page ever writes is written under Predict CSV:
    on a run without an upload, or with that button at rest, the files are
    left as they were, also when the run ends in an exception. *)
Theorem app_writes_only_on_predict_csv i w :
  predict_csv_clicked i = false ∨ uploaded_file i = None →
  files (app model pf i w).2 = files w.
Proof.
  intros Hidle. rewrite app_run.
  destruct (input_df (sidebar i)) as [input|e]; [|done].
  cbv zeta.
  assert (Hsingle :
    files ((if predict_risk_clicked i then predict_risk model input
            else mret ()) (drawn (page_head ++ input_card input) w)).2
    = files w).
  { destruct (predict_risk_clicked i); [|done].
    by rewrite (proj2 (predict_risk_frame _ _)). }
  destruct ((if predict_risk_clicked i then predict_risk model input
             else mret ()) _) as [[[]|e] w1]; [|done].
  simpl in Hsingle.
  assert (Hbatch :
    files (csv_upload model pf (uploaded_file i)
             (predict_csv_clicked i) w1).2 = files w1).
  { destruct Hidle as [-> | ->]; [|done].
    apply csv_upload_idle_files. }
  destruct (csv_upload model pf (uploaded_file i) (predict_csv_clicked i) w1)
    as [[[]|e] w2]; simpl in *; congruence.
Qed.

(** Once the pipeline is loaded, with selections the widgets allow and the
    Predict Risk button at rest, the page is drawn down to its footer. *)
Lemma app_reaches_footer i w :
  valid_sidebar (sidebar i) →
  predict_risk_clicked i = false →
  ∃ input w',
    input_df (sidebar i) = Ok input ∧
    app model pf i w = (Ok tt, w') ∧
    StDataframe input ∈ page w' ∧
    ∃ middle,
      page w' =
        (page w ++ page_head ++ input_card input ++ middle ++ page_foot)%list.
Proof.
  intros Hv Hc. destruct (input_df_returns _ Hv) as [input Hdf].
  exists input. rewrite app_run, Hdf, Hc. cbv zeta.
  change ((mret () : script ()) (drawn (page_head ++ input_card input) w))
    with (Ok (), drawn (page_head ++ input_card input) w).
  cbv iota beta.
  pose proof (csv_upload_returns model pf (uploaded_file i)
                (predict_csv_clicked i)
                (drawn (page_head ++ input_card input) w)) as Hret.
  assert (Hgrow : ∃ middle,
    page (csv_upload model pf (uploaded_file i) (predict_csv_clicked i)
            (drawn (page_head ++ input_card input) w)).2 =
    (page (drawn (page_head ++ input_card input) w) ++ middle)%list).
  { destruct (uploaded_file i) as [f|]; [|by exists []; rewrite app_nil_r].
    unfold csv_upload, try_except. rewrite csv_try_body_run.
    unfold predict_csv_outcome.
    destruct (read_csv pf f) as [df|]; [|by eexists].
    destruct (predict_csv_clicked i);
      [|by eexists].
    destruct (predict model df) as [preds|]; simpl;
      [|by eexists; rewrite <- app_assoc].
    destruct (predict_proba model df) as [probs|]; simpl;
      [|by eexists; rewrite <- app_assoc].
    destruct (decide (fits (length preds) (n_rows df))); simpl;
      [|by eexists; rewrite <- app_assoc].
    destruct (decide (fits (length probs) (length preds))); simpl;
      [|by eexists; rewrite <- app_assoc].
    destruct (open_error pf _ predictions_file); simpl;
      eexists; by rewrite <- !app_assoc. }
  destruct (csv_upload model pf (uploaded_file i) (predict_csv_clicked i)
              (drawn (page_head ++ input_card input) w)) as [[[]|e] w2];
    [|discriminate Hret].
  destruct Hgrow as [middle Hgrow]. cbn [snd page drawn] in Hgrow.
  assert (Hpage : page (drawn page_foot w2) =
            (page w ++ page_head ++ input_card input ++ middle ++
             page_foot)%list).
  { cbn [page drawn]. rewrite Hgrow. by rewrite <- !app_assoc. }
  eexists. split_and!; [done..| |by exists middle].
  rewrite Hpage, !elem_of_app. right. right. left.
  unfold input_card. apply list_elem_of_further, list_elem_of_here.
Qed.

(** X15: the single-record path has no handler.  When Predict Risk is
    pressed and [predict] raises, the run ends with that exception right
    after the button: the upload is not parsed, nothing is written, and the
    footer is not drawn. *)
Theorem predict_risk_failure_ends_run i w input e :
  input_df (sidebar i) = Ok input →
  predict_risk_clicked i = true →
  predict model input = Raise e →
  app model pf i w = (Raise e, drawn (page_head ++ input_card input) w).
Proof.
  intros Hdf Hc He. rewrite app_run, Hdf, Hc. cbv zeta.
  unfold predict_risk, mbind, script_bind, lift. by rewrite He.
Qed.

(** The run with a pipeline that loads: the style sheet, then the page. *)
Lemma main_run i w :
  main (Ok model) pf i w = app model pf i (drawn [StMarkdown style_sheet] w).
Proof. done. Qed.

(** X14: a run of the script.  When [load_model()] raises, the run ends
    with that exception right after the style sheet: nothing of the page is
    drawn.  When the pipeline loads, the selections are ones the widgets
    allow and the Predict Risk button is at rest, the run does not raise,
    whatever is uploaded and whatever the pipeline, the parser and the
    opening of the output file answer: the input table is on the page and
    the footer is the last thing drawn. *)
Theorem main_reaches_footer i w :
  (∀ e, main (Raise e) pf i w =
          (Raise e, drawn [StMarkdown style_sheet] w)) ∧
  (valid_sidebar (sidebar i) →
   predict_risk_clicked i = false →
   ∃ input w',
     input_df (sidebar i) = Ok input ∧
     main (Ok model) pf i w = (Ok tt, w') ∧
     StDataframe input ∈ page w' ∧
     ∃ middle,
       page w' =
         (page w ++ [StMarkdown style_sheet] ++ page_head ++
          input_card input ++ middle ++ page_foot)%list).
Proof.
  split; [done|]. intros Hv Hc. rewrite main_run.
  destruct (app_reaches_footer i (drawn [StMarkdown style_sheet] w) Hv Hc)
    as (input & w' & Hdf & Hrun & Hin & middle & Hpage).
  exists input, w'. split_and!; [done..|]. exists middle.
  rewrite Hpage. cbn [page drawn]. by rewrite <- !app_assoc.
Qed.

End WholeRun.

(** ** The further properties on the small concrete setting *)

(** The label [it's] has a single quote and no double quote: its [repr]
    is written between double quotes. *)
Lemma input_df_key_error_mistyped :
  input_df mistyped_sidebar =
    Raise (mkExc "KeyError"
             (String double_quote ("it's" ++ String double_quote ""))).
Proof.
  apply (proj1 (input_df_key_error mistyped_sidebar)).
  - repeat constructor.
  - apply (bool_decide_unpack _). by vm_compute.
Defined.

Lemma batch_output_names_earlier_output :
  ∃ out, csv_df earlier_output_done = Some out ∧
    column_names out =
      (column_names earlier_output ++
         filter (λ n, n ∉ column_names earlier_output) output_columns)%list ∧
    ∀ name, name ∉ output_columns →
      get_column name out =
      if decide (n_rows out = n_rows earlier_output)
      then get_column name earlier_output
      else reindex (n_rows out) <$> get_column name earlier_output.
Proof.
  apply (batch_output_names biopsy_model toy_platform
           (print_csv earlier_output) empty_world earlier_output_done
           earlier_output); by vm_compute.
Defined.

Lemma risk_label_missing_iff_two_patients :
  ∃ out, csv_df two_patients_done = Some out ∧
    (∀ i p, [1; 0] !! i = Some p →
       cell_at "prediction" i out = Some (VInt p)) ∧
    ∀ i, (i < n_rows out)%nat →
      ∃ c l,
        cell_at "prediction" i out = Some c ∧
        cell_at "risk_label" i out = Some l ∧
        (l = VNaN ↔ c ≠ VInt 0 ∧ c ≠ VInt 1).
Proof.
  apply (risk_label_missing_iff biopsy_model toy_platform
           (print_csv two_patients) empty_world two_patients_done
           two_patients [1; 0]); by vm_compute.
Defined.

Lemma batch_output_shape_header_only :
  ∃ out, csv_df header_only_done = Some out ∧
    (n_rows header_only ≤ n_rows out)%nat ∧
    (n_rows header_only ≠ 0%nat → n_rows out = n_rows header_only) ∧
    (∀ name, name ∈ output_columns →
       ∃ col, get_column name out = Some col ∧ length col = n_rows out) ∧
    (aligned header_only → aligned out) ∧
    (NoDup (column_names header_only) → NoDup (column_names out)).
Proof.
  apply (batch_output_shape two_row_model toy_platform
           (print_csv header_only) empty_world header_only_done
           header_only); by vm_compute.
Defined.


Lemma write_failure_hides_results_read_only :
  csv_upload biopsy_model read_only_platform (Some (print_csv two_patients))
    true empty_world =
    (Ok tt,
     mkWorld
       (Some (with_predictions two_patients [1; 0]
                [(1#4, 3#4)%Q; (4#5, 1#5)%Q]))
       ((page empty_world ++ uploaded_card two_patients) ++
        [csv_error permission_denied])
       (files empty_world)).
Proof.
  apply (write_failure_hides_results biopsy_model read_only_platform
           (print_csv two_patients) empty_world two_patients [1; 0]
           [(1#4, 3#4)%Q; (4#5, 1#5)%Q] permission_denied); by vm_compute.
Defined.

Lemma other_files_untouched_pipeline_file :
  files (csv_upload biopsy_model toy_platform (Some (print_csv two_patients))
           true empty_world).2 !! "xgb_pipeline.pkl"
  = files empty_world !! "xgb_pipeline.pkl".
Proof.
  apply (other_files_untouched biopsy_model toy_platform
           (Some (print_csv two_patients)) true empty_world
           "xgb_pipeline.pkl").
  by unfold predictions_file.
Defined.


Lemma app_writes_only_on_predict_csv_idle :
  files (app biopsy_model toy_platform idle_visit empty_world).2
  = files empty_world.
Proof.
  apply (app_writes_only_on_predict_csv biopsy_model toy_platform
           idle_visit empty_world).
  left. reflexivity.
Defined.

Lemma main_reaches_footer_idle :
  ∃ input w',
    input_df (sidebar idle_visit) = Ok input ∧
    main (Ok biopsy_model) toy_platform idle_visit empty_world = (Ok tt, w') ∧
    StDataframe input ∈ page w' ∧
    ∃ middle,
      page w' =
        (page empty_world ++ [StMarkdown style_sheet] ++ page_head ++
         input_card input ++ middle ++ page_foot)%list.
Proof.
  apply (proj2 (main_reaches_footer biopsy_model toy_platform idle_visit
                  empty_world)).
  - apply (bool_decide_unpack _). by vm_compute.
  - reflexivity.
Defined.

Lemma predict_risk_failure_ends_run_unfitted :
  app unfitted_model toy_platform predict_risk_visit empty_world =
    (Raise not_fitted,
     drawn (page_head ++ input_card example_record) empty_world).
Proof.
  apply (predict_risk_failure_ends_run unfitted_model toy_platform
           predict_risk_visit empty_world example_record not_fitted);
    reflexivity.
Defined.
